(** * weekday-holiday-checker: a shallow embedding of the page script

    The repository holds two versions of one script.  The current one
    (Tokyo clock, week numbers, business-day line) is embedded function by
    function; of the earlier one ([script.js]), whose cache and resolver
    are the same code, [render] is embedded as [Earlier.render].
    Conventions of the embedding:

    - a JavaScript number is an integer or NaN: [num := option Z], [None]
      being NaN.  Every number the script computes from date keys made of
      digits, from HTTP status codes and from millisecond clocks is an
      integer; JSON fractions are outside the embedding;
    - a JSON value is a [json]; an absent property ([undefined]) is [None]
      of type [option json];
    - objects are finite maps from property names to values.  Property
      names that the script reads ([status], [name], [title], [type], [ts],
      [message]) and cache keys (date keys) are never names of members of
      [Object.prototype] or [Array.prototype], nor array indices, so a
      lookup sees own properties only;
    - effects are explicit: [localStorage] is a value threaded through the
      cache functions, the network answer and the clock are arguments, the
      requests handed to [fetch] and the calls of [setCached] are returned
      as logs, and the document is a record;
    - [render] is an [async] function with one [await]: it is embedded as
      the part before the [await], which leaves a suspended call behind,
      and the part after it, run when the lookup settles; the script as a
      whole is a state machine over these two kinds of events;
    - what the browser supplies and the script's behaviour does not pin
      down is a parameter, the class [Host]; what the date input does
      with a value assigned to it is the class [DateInput]. *)

From Stdlib Require Import ZArith Lia Ascii String.
From stdpp Require Import base option list strings gmap.

Local Set Warnings "-register-all".
Local Open Scope Z_scope.

(** ** JavaScript values *)

Definition num : Type := option Z.

Inductive json : Type :=
  | JNull
  | JBool (b : bool)
  | JNum (n : Z)
  | JStr (s : string)
  | JArr (xs : list json)
  | JObj (fields : gmap string json).

(** ToBoolean.  [None] is [undefined]. *)
Definition truthy (v : option json) : bool :=
  match v with
  | None | Some JNull => false
  | Some (JBool b) => b
  | Some (JNum n) => negb (n =? 0)
  | Some (JStr s) => negb (String.eqb s "")
  | Some (JArr _) | Some (JObj _) => true
  end.

(** [a || b] *)
Definition js_or (a b : option json) : option json :=
  if truthy a then a else b.

(** [v.p] on a value that is not null (the script guards every access by a
    truthiness test).  Strings, numbers, booleans and arrays have none of
    the properties the script asks for. *)
Definition prop (v : json) (p : string) : option json :=
  match v with
  | JObj o => o !! p
  | _ => None
  end.

(** [typeof v === "object"]: objects, arrays and null. *)
Definition typeof_object (v : json) : bool :=
  match v with
  | JNull | JArr _ | JObj _ => true
  | _ => false
  end.

(** [v === "s"] for a string literal [s]. *)
Definition is_str (v : option json) (s : string) : bool :=
  match v with
  | Some (JStr t) => String.eqb t s
  | _ => false
  end.

(** ** Numbers and strings *)

Definition digit_of (n : Z) : ascii := ascii_of_nat (48 + Z.to_nat n).

Fixpoint digits_go (fuel : nat) (n : Z) (acc : string) : string :=
  match fuel with
  | O => acc
  | S fuel' =>
      let acc' := String (digit_of (n mod 10)) acc in
      if n / 10 =? 0 then acc' else digits_go fuel' (n / 10) acc'
  end.

(** Decimal digits of a natural number; [Z.to_nat (Z.log2 n) + 1] rounds are
    enough since [n < 2 ^ (log2 n + 1)]. *)
Definition digits (n : Z) : string :=
  digits_go (S (Z.to_nat (Z.log2 n))) n "".

(** [String(n)] for an integer (below 10^21 in size, where JavaScript still
    prints plain decimals). *)
Definition String_Z (n : Z) : string :=
  if n <? 0 then String "-" (digits (- n)) else digits n.

(** [String(x)] and template interpolation of a number. *)
Definition String_num (x : num) : string :=
  match x with
  | Some n => String_Z n
  | None => "NaN"
  end.

(** [s.padStart(n, fill)] for a one-character [fill]. *)
Definition padStart (n : nat) (fill : ascii) (s : string) : string :=
  string_of_list_ascii (repeat fill (n - String.length s)) +:+ s.

Definition pad2 (n : num) : string := padStart 2 "0" (String_num n).

Definition is_digit (c : ascii) : bool :=
  let n := nat_of_ascii c in ((48 <=? n) && (n <=? 57))%nat.

Fixpoint all_digits (s : string) : bool :=
  match s with
  | "" => true
  | String c s' => is_digit c && all_digits s'
  end.

Fixpoint digits_value (acc : Z) (s : string) : Z :=
  match s with
  | "" => acc
  | String c s' => digits_value (10 * acc + (Z.of_nat (nat_of_ascii c) - 48)) s'
  end.

(** [s.split("-")] *)
Fixpoint split_dash (s : string) : list string :=
  match s with
  | "" => [""]
  | String c s' =>
      if Ascii.eqb c "-" then "" :: split_dash s'
      else match split_dash s' with
           | p :: ps => String c p :: ps
           | [] => [String c ""]
           end
  end.

(** What the host environment supplies and the embedding leaves open. *)
Class Host := {
  (** [Number(s)] for a text that is not a run of decimal digits: a sign,
      a fraction, an exponent, a radix prefix, blanks, or no number at all
      (NaN).  It is never consulted on the pieces of a date key. *)
  Number_other : string -> num;
  (** [encodeURIComponent] *)
  encodeURIComponent : string -> string;
  (** [new Date(text + "T00:00:00").getDay()]: the weekday, in the time zone
      of the device, of the local midnight that the text denotes, or NaN.
      Only the earlier version of the script asks for it. *)
  local_getDay : string -> num
}.

(** [Number(s)]: a run of digits is its decimal value, the empty string 0. *)
Definition Number_str `{Host} (s : string) : num :=
  if all_digits s then Some (digits_value 0 s) else Number_other s.

(** Array.prototype.join on the texts of the elements. *)
Fixpoint join_comma (l : list string) : string :=
  match l with
  | [] => ""
  | [s] => s
  | s :: l' => s +:+ "," +:+ join_comma l'
  end.

(** ToString of a JSON value. *)
Fixpoint ToString (v : json) : string :=
  match v with
  | JNull => "null"
  | JBool true => "true"
  | JBool false => "false"
  | JNum n => String_Z n
  | JStr s => s
  | JArr xs =>
      join_comma (map (fun x => match x with JNull => "" | _ => ToString x end) xs)
  | JObj _ => "[object Object]"
  end.

(** ToNumber of a JSON value. *)
Definition ToNumber `{Host} (v : json) : num :=
  match v with
  | JNull => Some 0
  | JBool b => Some (if b then 1 else 0)
  | JNum n => Some n
  | JStr s => Number_str s
  | JArr _ => Number_str (ToString v)
  | JObj _ => None
  end.

(** Arithmetic on numbers: NaN is contagious, comparisons with NaN are
    false. *)
Definition num_sub (a b : num) : num :=
  match a, b with Some x, Some y => Some (x - y) | _, _ => None end.

Definition num_add (a b : num) : num :=
  match a, b with Some x, Some y => Some (x + y) | _, _ => None end.

Definition num_mul (a b : num) : num :=
  match a, b with Some x, Some y => Some (x * y) | _, _ => None end.

Definition num_gt (a b : num) : bool :=
  match a, b with Some x, Some y => x >? y | _, _ => false end.

Definition num_ge (a b : num) : bool :=
  match a, b with Some x, Some y => x >=? y | _, _ => false end.

(** [a === n] for an integer literal [n]. *)
Definition num_is (a : num) (n : Z) : bool :=
  match a with Some x => x =? n | None => false end.

(** [Math.max(0, a)] *)
Definition Math_max0 (a : num) : num :=
  match a with Some x => Some (Z.max 0 x) | None => None end.

(** ** Time values (ECMA-262, Date objects)

    The abstract operations of the language standard on integer time
    values, in milliseconds since 1970-01-01T00:00:00Z. *)

Definition msPerDay : Z := 86400000.

Definition Day (t : Z) : Z := t / msPerDay.

Definition isLeap (y : Z) : bool :=
  ((y mod 4 =? 0) && negb (y mod 100 =? 0)) || (y mod 400 =? 0).

Definition DaysInYear (y : Z) : Z := if isLeap y then 366 else 365.

Definition DayFromYear (y : Z) : Z :=
  365 * (y - 1970) + (y - 1969) / 4 - (y - 1901) / 100 + (y - 1601) / 400.

Definition TimeFromYear (y : Z) : Z := msPerDay * DayFromYear y.

(** The standard defines YearFromTime(t) as the largest [y] with
    [TimeFromYear y <= t]; this computes it from the mean year length and
    one correction step ([YearFromTime_largest] below proves the
    characterisation). *)
Definition YearFromTime (t : Z) : Z :=
  let d := Day t in
  let y := 1970 + (400 * d) / 146097 in
  if DayFromYear (y + 1) <=? d then y + 1
  else if DayFromYear y <=? d then y
  else y - 1.

Definition DayWithinYear (t : Z) : Z := Day t - DayFromYear (YearFromTime t).

Definition InLeapYear (t : Z) : Z :=
  if isLeap (YearFromTime t) then 1 else 0.

(** Months are numbered 0 (January) to 11 (December). *)
Definition MonthFromTime (t : Z) : Z :=
  let d := DayWithinYear t in
  let l := InLeapYear t in
  if d <? 31 then 0
  else if d <? 59 + l then 1
  else if d <? 90 + l then 2
  else if d <? 120 + l then 3
  else if d <? 151 + l then 4
  else if d <? 181 + l then 5
  else if d <? 212 + l then 6
  else if d <? 243 + l then 7
  else if d <? 273 + l then 8
  else if d <? 304 + l then 9
  else if d <? 334 + l then 10
  else 11.

(** Day number within the year of the first day of month [m] (0 to 11). *)
Definition MonthStart (l m : Z) : Z :=
  if m =? 0 then 0
  else if m =? 1 then 31
  else if m =? 2 then 59 + l
  else if m =? 3 then 90 + l
  else if m =? 4 then 120 + l
  else if m =? 5 then 151 + l
  else if m =? 6 then 181 + l
  else if m =? 7 then 212 + l
  else if m =? 8 then 243 + l
  else if m =? 9 then 273 + l
  else if m =? 10 then 304 + l
  else 334 + l.

Definition DateFromTime (t : Z) : Z :=
  DayWithinYear t - MonthStart (InLeapYear t) (MonthFromTime t) + 1.

Definition WeekDay (t : Z) : Z := (Day t + 4) mod 7.

(** MakeDay(year, month, date): the day number of the first day of month
    [month mod 12] of year [year + floor(month / 12)], plus [date - 1]
    ([MakeDay_first_of_month] below proves that the day found is the one
    the standard asks for). *)
Definition MakeDay (year month date : Z) : Z :=
  let ym := year + month / 12 in
  let mn := month mod 12 in
  DayFromYear ym + MonthStart (if isLeap ym then 1 else 0) mn + date - 1.

Definition MakeDate (day time : Z) : Z := day * msPerDay + time.

Definition TimeClip (t : Z) : num :=
  if Z.abs t >? 8640000000000000 then None else Some t.

(** MakeFullYear: years 0 to 99 mean 1900 to 1999. *)
Definition MakeFullYear (y : Z) : Z :=
  if (0 <=? y) && (y <=? 99) then 1900 + y else y.

(** [Date.UTC(year, month, date)] *)
Definition Date_UTC (year month date : num) : num :=
  match year, month, date with
  | Some y, Some m, Some d =>
      TimeClip (MakeDate (MakeDay (MakeFullYear y) m d) 0)
  | _, _, _ => None
  end.

(** A Date object is its time value; an Invalid Date holds NaN.  The script
    never mutates a Date. *)
Definition Date : Type := num.

(** [new Date(value)] for a number. *)
Definition new_Date (value : num) : Date :=
  match value with Some t => TimeClip t | None => None end.

Definition getTime (d : Date) : num := d.
Definition getUTCFullYear (d : Date) : num := YearFromTime <$> d.
Definition getUTCMonth (d : Date) : num := MonthFromTime <$> d.
Definition getUTCDate (d : Date) : num := DateFromTime <$> d.
Definition getUTCDay (d : Date) : num := WeekDay <$> d.

(** ** Configuration *)

Definition API_BASE : string := "https://api.national-holidays.jp/".
Definition FETCH_TIMEOUT_MS : Z := 4500.
Definition CACHE_TTL_MS : Z := 120 * 24 * 60 * 60 * 1000.
Definition MS_PER_DAY : Z := 24 * 60 * 60 * 1000.

Definition DOW_JA : list string :=
  ["日曜日"; "月曜日"; "火曜日"; "水曜日"; "木曜日"; "金曜日"; "土曜日"].
Definition DOW_EN : list string :=
  ["Sun"; "Mon"; "Tue"; "Wed"; "Thu"; "Fri"; "Sat"].

(** ** Civil dates *)

(** Element [i] of a destructured array of numbers; a missing element is
    [undefined] and turns into NaN in the arithmetic that follows. *)
Definition item_num (l : list num) (i : nat) : num := mjoin (l !! i).

Definition ymdToUTCDate `{Host} (dateStr : string) : Date :=
  let parts := map Number_str (split_dash dateStr) in
  let y := item_num parts 0 in
  let m := item_num parts 1 in
  let d := item_num parts 2 in
  new_Date (Date_UTC y (num_sub m (Some 1)) d).

Definition utcDateToYMD (utcDate : Date) : string :=
  let y := getUTCFullYear utcDate in
  let m := num_add (getUTCMonth utcDate) (Some 1) in
  let d := getUTCDate utcDate in
  String_num y +:+ "-" +:+ pad2 m +:+ "-" +:+ pad2 d.

(** [Math.floor(x / a / b)]: the floor of the exact quotient, which nested
    floor divisions compute on integers. *)
Definition Math_floor_div2 (x : num) (a b : Z) : num :=
  (fun v => v / a / b) <$> x.

(** [Math.round(x / a)] for [a > 0]: the nearest integer, halves upwards. *)
Definition Math_round_div (x : num) (a : Z) : num :=
  (fun v => (2 * v + a) / (2 * a)) <$> x.

Definition weeksDaysLabelFromDiffDays (diffDays : num) : string :=
  if num_is diffDays 0 then "今日（0日）"
  else
    let sign : Z := if num_gt diffDays (Some 0) then 1 else -1 in
    let abs := Z.abs <$> diffDays in
    let w := (fun v => v / 7) <$> abs in
    let d := (fun v => Z.rem v 7) <$> abs in
    let nonzero (x : num) :=
      match x with Some v => negb (v =? 0) | None => false end in
    let parts :=
      (if nonzero w then [String_num w +:+ "週間"] else []) ++
      (if nonzero d then [String_num d +:+ "日"] else []) in
    let body :=
      match parts with [] => "0日" | _ => String.concat "" parts end in
    if sign >? 0 then body +:+ "後（+" +:+ String_num abs +:+ "日）"
    else body +:+ "前（-" +:+ String_num abs +:+ "日）".

(** Monday-start week start for a UTC date (civil date basis). *)
Definition mondayStartUTC (utcDate : Date) : Date :=
  let dow := getUTCDay utcDate in
  let delta := (fun v => Z.rem (v + 6) 7) <$> dow in
  new_Date (num_sub (getTime utcDate) (num_mul delta (Some MS_PER_DAY))).

Record WeekPos := { idx : num; total : num; remain : num }.

Definition weekIndexAndRemaining (utcDate periodStartUTC periodEndUTC : Date)
  : WeekPos :=
  let firstWeekStart := mondayStartUTC periodStartUTC in
  let thisWeekStart := mondayStartUTC utcDate in
  let lastWeekStart := mondayStartUTC periodEndUTC in
  let idx :=
    num_add (Math_floor_div2 (num_sub thisWeekStart firstWeekStart) MS_PER_DAY 7)
            (Some 1) in
  let total :=
    num_add (Math_floor_div2 (num_sub lastWeekStart firstWeekStart) MS_PER_DAY 7)
            (Some 1) in
  let remain := Math_max0 (num_sub total idx) in
  {| idx := idx; total := total; remain := remain |}.

Record YearPeriod := { yp_y : num; yp_start : Date; yp_end : Date }.

Definition getYearPeriodFor (utcDate : Date) : YearPeriod :=
  let y := getUTCFullYear utcDate in
  {| yp_y := y;
     yp_start := new_Date (Date_UTC y (Some 0) (Some 1));
     yp_end := new_Date (Date_UTC y (Some 11) (Some 31)) |}.

Record FiscalPeriod := { fyStart : Date; fyEnd : Date }.

Definition getFiscalPeriodFor (utcDate : Date) : FiscalPeriod :=
  let y := getUTCFullYear utcDate in
  let apr1This := new_Date (Date_UTC y (Some 3) (Some 1)) in
  let fyStart :=
    if num_ge utcDate apr1This then apr1This
    else new_Date (Date_UTC (num_sub y (Some 1)) (Some 3) (Some 1)) in
  let fyEnd :=
    new_Date (Date_UTC (num_add (getUTCFullYear fyStart) (Some 1))
                       (Some 2) (Some 31)) in
  {| fyStart := fyStart; fyEnd := fyEnd |}.

(** ** Cache *)

(** The text stored under [CACHE_KEY]: either the JSON text of a value, or
    a text that [JSON.parse] rejects (the empty text, which the script
    tests for first, ends in the same empty cache). *)
Inductive blob : Type :=
  | Garbage
  | Doc (v : json).

(** [localStorage] as the script sees it: the item under [CACHE_KEY], and
    whether [setItem] goes through (it throws when the quota is exhausted
    or storage is disabled). *)
Record localStorage := {
  item : option blob;
  accepts_writes : bool
}.

Definition loadCache (ls : localStorage) : json :=
  match item ls with
  | None | Some Garbage => JObj ∅
  | Some (Doc obj) =>
      if truthy (Some obj) && typeof_object obj then obj else JObj ∅
  end.

Definition saveCache (cache : json) (ls : localStorage) : localStorage :=
  if accepts_writes ls
  then {| item := Some (Doc cache); accepts_writes := true |}
  else ls.

(** [getCached(dateStr)] for a date key: [cache[dateStr]] is then an own
    property of the stored object or undefined, since a date key names no
    member of [Object.prototype] or [Array.prototype]. *)
Definition getCached `{Host} (dateStr : string) (now : Z) (ls : localStorage)
  : option json :=
  let cache := loadCache ls in
  let v := prop cache dateStr in
  if negb (truthy v) then None
  else
    match v with
    | None => None
    | Some e =>
        let ts := prop e "ts" in
        if truthy ts &&
           num_gt (num_sub (Some now) (ts ≫= ToNumber)) (Some CACHE_TTL_MS)
        then None
        else Some e
    end.

(** [cache[dateStr] = entry] as [JSON.stringify] will see it: a property of
    an object; on an array a date key is not an index, and the property is
    not serialised.  This is the assignment for a date key, which creates
    an own property; the name "__proto__" would set the prototype. *)
Definition assign (cache : json) (dateStr : string) (entry : json) : json :=
  match cache with
  | JObj o => JObj (<[dateStr := entry]> o)
  | _ => cache
  end.

(** [payload] is an object literal at both call sites: its fields. *)
Definition setCached (dateStr : string) (payload : gmap string json) (now : Z)
    (ls : localStorage) : localStorage :=
  let cache := loadCache ls in
  saveCache (assign cache dateStr (JObj (<["ts" := JNum now]> payload))) ls.

(** ** Holiday fetch *)

(** What [res.json()] settles with. *)
Inductive body : Type :=
  | BodyJson (j : json)   (** the body parsed as JSON *)
  | BodyNotJson           (** the body arrived and is not JSON: SyntaxError *)
  | BodyLost.             (** the connection failed while reading the body *)

(** What [fetchWithTimeout] settles with. *)
Inductive reply : Type :=
  | Timeout                               (** aborted by the timer *)
  | TransportFault                        (** offline, CORS, DNS, ... *)
  | Response (status : Z) (b : body).

(** [res.ok] *)
Definition ok (status : Z) : bool := (200 <=? status) && (status <=? 299).

(** [v || ""] *)
Definition or_empty (v : option json) : json :=
  match v with
  | Some x => if truthy v then x else JStr ""
  | None => JStr ""
  end.

(** The object [{ name, type }] that [normalizeHolidayResponse] builds. *)
Record info := { info_name : json; info_type : json }.

Definition normalizeHolidayResponse (j : json) : option info :=
  if negb (truthy (Some j)) then None
  else
    match j with
    | JArr xs =>
        let first := xs !! 0%nat in
        match first with
        | Some f =>
            if truthy first && typeof_object f then
              Some {| info_name := or_empty (js_or (prop f "name") (prop f "title"));
                      info_type := or_empty (prop f "type") |}
            else None
        | None => None
        end
    | JObj _ =>
        Some {| info_name := or_empty (js_or (prop j "name") (prop j "title"));
                info_type := or_empty (prop j "type") |}
    | _ => None
    end.

(** The object literals that [getHolidayByAPI] returns. *)
Definition payload_not : gmap string json := {[ "status" := JStr "not" ]}.

Definition payload_holiday (name type : json) : gmap string json :=
  <["status" := JStr "holiday"]> (<["name" := name]> (<["type" := type]> ∅)).

Definition payload_error (message : string) : gmap string json :=
  <["status" := JStr "error"]> (<["message" := JStr message]> ∅).

(** One call of [getHolidayByAPI]: the value the promise resolves with, the
    storage afterwards, the URLs handed to [fetch], and the calls of
    [setCached] (key and payload). *)
Record outcome := {
  result : json;
  storage : localStorage;
  requests : list string;
  writes : list (string * gmap string json)
}.

(** [now] is the clock at the cache check, [net] the answer of the network
    if it is asked, [later] the clock when that answer is handled. *)
Definition getHolidayByAPI `{Host} (dateStr : string) (now : Z)
    (net : reply) (later : Z) (ls : localStorage) : outcome :=
  match getCached dateStr now ls with
  | Some cached =>
      {| result := cached; storage := ls; requests := []; writes := [] |}
  | None =>
      let url := API_BASE +:+ encodeURIComponent dateStr in
      (* setCached(dateStr, payload); return payload; *)
      let cache_and_return payload :=
        {| result := JObj payload;
           storage := setCached dateStr payload later ls;
           requests := [url];
           writes := [(dateStr, payload)] |} in
      (* return { status: "error", message }; *)
      let return_error message :=
        {| result := JObj (payload_error message);
           storage := ls; requests := [url]; writes := [] |} in
      match net with
      | Response status b =>
          if status =? 404 then cache_and_return payload_not
          else if negb (ok status) then
            return_error ("HTTP " +:+ String_Z status)
          else
            match b with
            | BodyJson j =>
                match normalizeHolidayResponse j with
                | Some i =>
                    if truthy (Some (info_name i)) then
                      cache_and_return
                        (payload_holiday (info_name i)
                                         (or_empty (Some (info_type i))))
                    else return_error "unexpected response"
                | None => return_error "unexpected response"
                end
            | BodyNotJson | BodyLost => return_error "network"
            end
      | Timeout | TransportFault => return_error "network"
      end
  end.

(** A sequence of lookups, each with its key, clocks and network answer,
    and the storage they leave behind. *)
Record call := { c_key : string; c_now : Z; c_net : reply; c_later : Z }.

Definition storage_after `{Host} (cs : list call) (ls : localStorage)
  : localStorage :=
  fold_left
    (fun st c => storage (getHolidayByAPI (c_key c) (c_now c) (c_net c) (c_later c) st))
    cs ls.

(** ** Render *)

(** The part of the document the script writes: the text of the elements
    it looked up by id, the [hidden] flag of the holiday-name row, and the
    children of the badge container (text and class name). *)
Record page := {
  text : gmap string string;
  holidayNameRow_hidden : bool;
  badges : list (string * string)
}.

(** [el.textContent = s] for the element with id [el]. *)
Definition set_text (el s : string) (p : page) : page :=
  {| text := <[el := s]> (text p);
     holidayNameRow_hidden := holidayNameRow_hidden p;
     badges := badges p |}.

Definition clearBadges (p : page) : page :=
  {| text := text p;
     holidayNameRow_hidden := holidayNameRow_hidden p;
     badges := [] |}.

Definition addBadge (label kind : string) (p : page) : page :=
  let className :=
    "ck-badge" +:+ (if String.eqb kind "" then "" else " " +:+ kind) in
  {| text := text p;
     holidayNameRow_hidden := holidayNameRow_hidden p;
     badges := badges p ++ [(label, className)] |}.

Definition setNote (msg : string) (p : page) : page := set_text "noteText" msg p.

(** [name] is a JSON value or the empty string. *)
Definition setHolidayName (name : json) (p : page) : page :=
  if truthy (Some name) then
    {| text := <["holidayNameText" := ToString name]> (text p);
       holidayNameRow_hidden := false;
       badges := badges p |}
  else
    {| text := <["holidayNameText" := "—"]> (text p);
       holidayNameRow_hidden := true;
       badges := badges p |}.

(** [arr[i]] inside a template string. *)
Definition label_at (arr : list string) (i : num) : string :=
  match i with
  | Some n => if n <? 0 then "undefined" else default "undefined" (arr !! Z.to_nat n)
  | None => "undefined"
  end.

Definition weekendBadge (isWeekend : bool) (p : page) : page :=
  addBadge (if isWeekend then "土日" else "平日")
           (if isWeekend then "ck-badge-warn" else "ck-badge-accent") p.

(** A call of [render] suspended at [await getHolidayByAPI(dateStr)]: the
    locals that the rest of the function reads. *)
Record suspended := { reqId : Z; isWeekend : bool }.

(** The script's mutable state: the counter [lastReqId], the document, and
    the calls of [render] that wait for their lookup. *)
Record app := {
  lastReqId : Z;
  dom : page;
  awaiting : list suspended
}.

(** [render(dateStr)] up to its [await].  [today] is what
    [getTokyoTodayYMD()] returns at that moment. *)
Definition render `{Host} (dateStr today : string) (s : app) : app :=
  let p := setHolidayName (JStr "") (setNote "" (clearBadges (dom s))) in
  if String.eqb dateStr "" then
    let p := set_text "datePretty" "—" p in
    let p := set_text "dowText" "—" p in
    let p := set_text "calendarDayText" "—" p in
    let p := set_text "holidayText" "—" p in
    let p := set_text "businessDayText" "—" p in
    let p := set_text "diffText" "—" p in
    let p := set_text "yearWeekText" "—" p in
    let p := set_text "fiscalWeekText" "—" p in
    {| lastReqId := lastReqId s; dom := p; awaiting := awaiting s |}
  else
    let p := set_text "datePretty" dateStr p in
    let targetUTC := ymdToUTCDate dateStr in
    let dow := getUTCDay targetUTC in
    let isWeekend := num_is dow 0 || num_is dow 6 in
    let p := set_text "dowText"
               (label_at DOW_JA dow +:+ " (" +:+ label_at DOW_EN dow +:+ ")") p in
    let p := set_text "calendarDayText"
               (if isWeekend then "土日（暦日）" else "平日（暦日）") p in
    let p := weekendBadge isWeekend p in
    let p := addBadge "祝日判定" "ck-badge" p in
    let todayUTC := ymdToUTCDate today in
    let diffDays := Math_round_div (num_sub targetUTC todayUTC) MS_PER_DAY in
    let p := set_text "diffText" (weeksDaysLabelFromDiffDays diffDays) p in
    let yPer := getYearPeriodFor targetUTC in
    let yw := weekIndexAndRemaining targetUTC (yp_start yPer) (yp_end yPer) in
    let p := set_text "yearWeekText"
               ("第" +:+ String_num (idx yw) +:+ "週（残り" +:+
                String_num (remain yw) +:+ "週）") p in
    let fPer := getFiscalPeriodFor targetUTC in
    let fw := weekIndexAndRemaining targetUTC (fyStart fPer) (fyEnd fPer) in
    let fyLabel := String_num (getUTCFullYear (fyStart fPer)) +:+ "年度" in
    let p := set_text "fiscalWeekText"
               (fyLabel +:+ " 第" +:+ String_num (idx fw) +:+ "週（残り" +:+
                String_num (remain fw) +:+ "週）") p in
    let reqId := lastReqId s + 1 in
    let p := set_text "holidayText" "判定中…" p in
    let p := set_text "businessDayText" "判定中…" p in
    {| lastReqId := reqId; dom := p;
       awaiting := {| reqId := reqId; isWeekend := isWeekend |} :: awaiting s |}.

(** The rest of [render] once the lookup has settled with [result], seen
    from the document. *)
Definition render_rest (k : suspended) (result : json) (s : app) : page :=
  if negb (reqId k =? lastReqId s) then dom s
  else
    let p := weekendBadge (isWeekend k) (clearBadges (dom s)) in
    let status := prop result "status" in
    let '(isHoliday, p) :=
      if is_str status "holiday" then
        let holidayName := or_empty (prop result "name") in
        let holidayType := or_empty (prop result "type") in
        let p := set_text "holidayText" "祝日" p in
        let p := setHolidayName holidayName p in
        let p := addBadge "祝日" "ck-badge-accent" p in
        let p :=
          if truthy (Some holidayType)
          then setNote ("種別：" +:+ ToString holidayType) p else p in
        (true, p)
      else if is_str status "not" then
        let p := set_text "holidayText" "祝日ではありません" p in
        let p := setHolidayName (JStr "") p in
        let p := setNote "" p in
        (false, p)
      else
        let p := set_text "holidayText" "取得失敗（通信/応答）" p in
        let p := setHolidayName (JStr "") p in
        let p := setNote "ネットワーク状況を確認してください（曜日/暦日/差分/週番号は端末内で表示しています）。" p in
        let p := addBadge "祝日判定失敗" "ck-badge-warn" p in
        (false, p) in
    let isBusinessDay := negb (isWeekend k) && negb isHoliday in
    let p := set_text "businessDayText"
               (if isBusinessDay then "営業日" else "休業日（非営業日）") p in
    addBadge (if isBusinessDay then "営業日" else "休業日")
             (if isBusinessDay then "ck-badge-accent" else "ck-badge-warn") p.

(** The earlier version of the script ([script.js]).  Its cache and its
    [getHolidayByAPI] are the ones above (another [CACHE_KEY], and a [date]
    field in [normalizeHolidayResponse] that nothing reads); its [render]
    takes the weekday from the local clock and writes fewer lines. *)
Module Earlier.

Definition render `{Host} (dateStr : string) (s : app) : app :=
  let p := setHolidayName (JStr "") (setNote "" (clearBadges (dom s))) in
  if String.eqb dateStr "" then
    let p := set_text "datePretty" "—" p in
    let p := set_text "dowText" "—" p in
    let p := set_text "holidayText" "—" p in
    {| lastReqId := lastReqId s; dom := p; awaiting := awaiting s |}
  else
    let p := set_text "datePretty" dateStr p in
    let dow := local_getDay dateStr in
    let isWeekend := num_is dow 0 || num_is dow 6 in
    let p := set_text "dowText"
               (label_at DOW_JA dow +:+ " (" +:+ label_at DOW_EN dow +:+ ")") p in
    let p := weekendBadge isWeekend p in
    let reqId := lastReqId s + 1 in
    let p := set_text "holidayText" "判定中…" p in
    let p := addBadge "祝日判定" "ck-badge" p in
    {| lastReqId := reqId; dom := p;
       awaiting := {| reqId := reqId; isWeekend := isWeekend |} :: awaiting s |}.

Definition render_rest (k : suspended) (result : json) (s : app) : page :=
  if negb (reqId k =? lastReqId s) then dom s
  else
    let p := weekendBadge (isWeekend k) (clearBadges (dom s)) in
    let status := prop result "status" in
    if is_str status "holiday" then
      let p := addBadge "祝日" "ck-badge-accent" p in
      let p := set_text "holidayText" "祝日" p in
      let p := setHolidayName (or_empty (prop result "name")) p in
      setNote (match prop result "type" with
               | Some type =>
                   if truthy (Some type) then "種別：" +:+ ToString type else ""
               | None => ""
               end) p
    else if is_str status "not" then
      let p := set_text "holidayText" "祝日ではありません" p in
      let p := setHolidayName (JStr "") p in
      setNote "" p
    else
      let p := set_text "holidayText" "取得失敗（通信/応答）" p in
      let p := setHolidayName (JStr "") p in
      let p := setNote "ネットワーク状況を確認してください（曜日と土日判定は端末内で表示しています）。" p in
      addBadge "祝日判定失敗" "ck-badge-warn" p.

End Earlier.

(** The two versions of the script in the repository. *)
Inductive version : Type :=
  | EarlierScript
  | CurrentScript.

Definition render_of `{Host} (v : version) (dateStr today : string) (s : app)
  : app :=
  match v with
  | EarlierScript => Earlier.render dateStr s
  | CurrentScript => render dateStr today s
  end.

Definition render_rest_of (v : version) (k : suspended) (result : json)
    (s : app) : page :=
  match v with
  | EarlierScript => Earlier.render_rest k result s
  | CurrentScript => render_rest k result s
  end.

(** What happens to the page, one event at a time: a call of [render] from
    an event handler ([today] is the Tokyo date at that moment, which the
    current version reads), or the lookup of a suspended call settling. *)
Inductive event : Type :=
  | Render (dateStr today : string)
  | Settle (id : Z) (result : json).

(** The first suspended call with request id [id], and the others. *)
Fixpoint take_suspended (id : Z) (l : list suspended)
  : option (suspended * list suspended) :=
  match l with
  | [] => None
  | k :: l' =>
      if reqId k =? id then Some (k, l')
      else
        match take_suspended id l' with
        | Some (k', rest) => Some (k', k :: rest)
        | None => None
        end
  end.

Definition step `{Host} (v : version) (s : app) (e : event) : app :=
  match e with
  | Render dateStr today => render_of v dateStr today s
  | Settle id result =>
      match take_suspended id (awaiting s) with
      | Some (k, rest) =>
          {| lastReqId := lastReqId s;
             dom := render_rest_of v k result s;
             awaiting := rest |}
      | None => s
      end
  end.

Definition run `{Host} (v : version) (evs : list event) (s : app) : app :=
  fold_left (step v) evs s.

(** Every suspended call carries a request id that was issued. *)
Definition issued (s : app) : Prop :=
  Forall (fun k => reqId k <= lastReqId s) (awaiting s).

#[global] Instance issued_dec s : Decision (issued s).
Proof. unfold issued. apply _. Defined.

(** The script starts with [lastReqId = 0] and no call of [render] under
    way, on the document as the HTML file has it. *)
Definition initial (p : page) : app :=
  {| lastReqId := 0; dom := p; awaiting := [] |}.

Definition is_settle (e : event) : bool :=
  match e with Settle _ _ => true | Render _ _ => false end.

(** The result carried by the first event of [evs] that settles the lookup
    with request id [id]. *)
Fixpoint first_settle (id : Z) (evs : list event) : option json :=
  match evs with
  | [] => None
  | Settle id' result :: evs' =>
      if id' =? id then Some result else first_settle id evs'
  | Render _ _ :: evs' => first_settle id evs'
  end.

(** ** The vocabulary of the specification

    Definitions that follow the words of the specification, to be compared
    with the script's functions above. *)

(** HolidayResult: [{status: Holiday | NotHoliday | Error, name?, type?,
    message?}]. *)
Inductive HolidayResult : Type :=
  | Holiday (name : json) (type : option json)
  | NotHoliday
  | Error (message : string).

(** The object the script uses for a HolidayResult; an absent type is the
    empty string. *)
Definition result_object (r : HolidayResult) : json :=
  match r with
  | Holiday name type => JObj (payload_holiday name (default (JStr "") type))
  | NotHoliday => JObj payload_not
  | Error message => JObj (payload_error message)
  end.

(** "either a single object or an array whose first element is an object" *)
Definition payload_object (j : json) : option json :=
  match j with
  | JObj _ => Some j
  | JArr (JObj o :: _) => Some (JObj o)
  | _ => None
  end.

(** A field that is present and not empty (not the empty string; for
    values that are not strings, not falsy). *)
Definition nonempty_field (o : json) (f : string) : option json :=
  match prop o f with
  | Some v => if truthy (Some v) then Some v else None
  | None => None
  end.

(** "containing a non-empty name (or title) field": the name, and the
    optional type. *)
Definition payload_name (j : json) : option (json * option json) :=
  match payload_object j with
  | Some o =>
      match nonempty_field o "name", nonempty_field o "title" with
      | Some n, _ => Some (n, nonempty_field o "type")
      | None, Some t => Some (t, nonempty_field o "type")
      | None, None => None
      end
  | None => None
  end.

(** The classification of section 4.4 for a cache miss.  [unreadable] is
    the result for a success response whose body is not JSON at all, on
    which the sentence of the specification and the script differ. *)
Definition classify (unreadable : HolidayResult) (net : reply) : HolidayResult :=
  match net with
  | Timeout | TransportFault => Error "network"
  | Response status b =>
      if status =? 404 then NotHoliday
      else if ok status then
        match b with
        | BodyJson j =>
            match payload_name j with
            | Some (name, type) => Holiday name type
            | None => Error "unexpected response"
            end
        | BodyNotJson => unreadable
        | BodyLost => Error "network"
        end
      else Error ("HTTP " +:+ String_Z status)
  end.

(** The sentence as written: a success response whose payload yields no
    name is an "unexpected response". *)
Definition classify_as_specified : reply -> HolidayResult :=
  classify (Error "unexpected response").

(** Some entry of the persisted cache holds the status Error. *)
Definition error_entry (ls : localStorage) : Prop :=
  exists k e, prop (loadCache ls) k = Some e /\
              is_str (prop e "status") "error" = true.

(** "whole-day count between two civil dates", on UTC-midnight time
    values. *)
Definition daysBetween (a b : Z) : Z := Day b - Day a.

(** [m] is "the Monday of the week containing" [t]: a Monday, at most six
    days before [t], at the same time of day. *)
Definition mondayAnchor_of (m t : Z) : Prop :=
  WeekDay m = 1 /\ m <= t < m + 7 * msPerDay /\ (t - m) mod msPerDay = 0.

#[global] Instance mondayAnchor_of_dec m t : Decision (mondayAnchor_of m t).
Proof. unfold mondayAnchor_of. apply _. Defined.

(** Number of days of month [m] (0 to 11) in a leap or common year. *)
Definition DaysInMonth (leap : bool) (m : Z) : Z :=
  if m =? 1 then (if leap then 29 else 28)
  else if (m =? 3) || (m =? 5) || (m =? 8) || (m =? 10) then 30
  else 31.

(** A real calendar date: month 1 to 12, day within the month. *)
Definition valid_civil (yr m d : Z) : Prop :=
  1 <= m <= 12 /\ 1 <= d <= DaysInMonth (isLeap yr) (m - 1).

#[global] Instance valid_civil_dec yr m d : Decision (valid_civil yr m d).
Proof. unfold valid_civil. apply _. Defined.

(** The canonical "YYYY-MM-DD" text of a civil date. *)
Definition canonical_key (yr m d : Z) : string :=
  padStart 4 "0" (digits yr) +:+ "-" +:+ padStart 2 "0" (digits m) +:+ "-" +:+
  padStart 2 "0" (digits d).

(** A valid date key: the canonical text of a real calendar date with a
    year of four digits. *)
Definition valid_key (k : string) : Prop :=
  exists yr m d, 0 <= yr <= 9999 /\ valid_civil yr m d /\ k = canonical_key yr m d.

(** A zero-padded decimal rendering is made of digits and reads back as
    the number. *)
Definition field_ok (width : nat) (n : Z) : bool :=
  all_digits (padStart width "0" (digits n)) &&
  (digits_value 0 (padStart width "0" (digits n)) =? n).

(** A host for evaluating the current script on date keys: [Number] is
    asked about digits only, a date key has no character that
    [encodeURIComponent] escapes, and the local weekday is not asked
    for. *)
Definition date_key_host : Host :=
  {| Number_other := fun _ => None;
     encodeURIComponent := fun s => s;
     local_getDay := fun _ => None |}.

#[local] Existing Instance date_key_host.

(** ** Sample inputs *)

(** An empty storage that takes writes, one that refuses them, and one
    that holds a single entry for 2024-01-01. *)
Definition empty_storage : localStorage :=
  {| item := None; accepts_writes := true |}.

Definition full_storage : localStorage :=
  {| item := None; accepts_writes := false |}.

Definition storage_with (entry : json) : localStorage :=
  {| item := Some (Doc (JObj {[ "2024-01-01" := entry ]}));
     accepts_writes := true |}.

(** A document whose elements are still empty. *)
Definition blank_page : page :=
  {| text := ∅; holidayNameRow_hidden := true; badges := [] |}.

(** Lookup A: the page asked for Monday 2024-01-01 on that day; lookup B:
    then asked for Saturday 2024-01-06 before A has settled. *)
Definition lookup_A_started : app :=
  render_of CurrentScript "2024-01-01" "2024-01-01" (initial blank_page).

Definition lookup_B_started : app :=
  render_of CurrentScript "2024-01-06" "2024-01-01" lookup_A_started.

(** ** Event handlers *)

(** The date input next to the script's state. *)
Record ui := {
  dateInput_value : string;
  script : app
}.

(** What the input holds after [dateInput.value = s]: the element's
    value sanitization, which depends on the type of the input in the
    page's markup. *)
Class DateInput := { assigned : string -> string }.

(** The sanitization of an input of type date: a valid date string is
    kept, anything else becomes the empty string.  A valid date string
    is a year of four or more digits that is not zero, a month and a day
    of two digits each, and together a day of the calendar. *)
Definition valid_date_string (s : string) : bool :=
  match split_dash s with
  | [y; m; d] =>
      all_digits y && (4 <=? String.length y)%nat && (0 <? digits_value 0 y) &&
      all_digits m && (String.length m =? 2)%nat &&
      all_digits d && (String.length d =? 2)%nat &&
      bool_decide (valid_civil (digits_value 0 y) (digits_value 0 m)
                     (digits_value 0 d))
  | _ => false
  end.

Definition date_input : DateInput :=
  {| assigned := fun s => if valid_date_string s then s else "" |}.

#[local] Existing Instance date_input.

(** The listener of [dateInput]'s "change" event, after the browser has
    put [value] in the input: [render(dateInput.value)]. *)
Definition on_change `{Host} (v : version) (value today : string) (u : ui)
  : ui :=
  {| dateInput_value := value;
     script := render_of v value today (script u) |}.

(** The listener of [todayBtn]: [t] is what [getTokyoTodayYMD()] (in the
    earlier version [todayStr()]) returns in the listener, [today] what
    [getTokyoTodayYMD()] returns inside [render] a moment later.  The
    input sanitizes what is assigned to it; [render] gets [t] itself. *)
Definition on_todayBtn `{Host} `{DateInput} (v : version) (t today : string)
    (u : ui) : ui :=
  {| dateInput_value := assigned t;
     script := render_of v t today (script u) |}.

(** The listener of [clearBtn].  [render("")] returns before it reads the
    clock. *)
Definition on_clearBtn `{Host} `{DateInput} (v : version) (u : ui) : ui :=
  {| dateInput_value := assigned "";
     script := render_of v "" "" (script u) |}.

(** A lookup settles; the input is not touched. *)
Definition on_settled `{Host} (v : version) (id : Z) (result : json) (u : ui)
  : ui :=
  {| dateInput_value := dateInput_value u;
     script := step v (script u) (Settle id result) |}.

Inductive ui_event : Type :=
  | Change (value today : string)
  | TodayBtn (t today : string)
  | ClearBtn
  | Settled (id : Z) (result : json).

Definition handle `{Host} `{DateInput} (v : version) (u : ui) (e : ui_event) : ui :=
  match e with
  | Change value today => on_change v value today u
  | TodayBtn t today => on_todayBtn v t today u
  | ClearBtn => on_clearBtn v u
  | Settled id result => on_settled v id result u
  end.

(** The last statements of the script, run when the page loads.  The
    current version puts today's date in the input and renders it; the
    earlier one renders what the input holds. *)
Definition load `{Host} `{DateInput} (v : version) (value t today : string) (p : page) : ui :=
  match v with
  | CurrentScript =>
      on_todayBtn v t today {| dateInput_value := value; script := initial p |}
  | EarlierScript =>
      on_change v value today {| dateInput_value := value; script := initial p |}
  end.

(** The input keeps what the listener of [todayBtn] assigns to it. *)
Definition input_keeps `{DateInput} (e : ui_event) : bool :=
  match e with
  | TodayBtn t _ => String.eqb (assigned t) t
  | _ => true
  end.

(** What [ymdPretty] shows for the value of the input. *)
Definition ymdPretty (dateStr : string) : string :=
  if String.eqb dateStr "" then "—" else dateStr.

(** A call of [render] that starts a lookup. *)
Definition starts_lookup (e : event) : bool :=
  match e with
  | Render dateStr _ => negb (String.eqb dateStr "")
  | Settle _ _ => false
  end.

(** The request ids of the suspended calls decrease from the head on. *)
Fixpoint ids_decrease (l : list suspended) : Prop :=
  match l with
  | [] => True
  | k :: l' => Forall (fun k' => reqId k' < reqId k) l' /\ ids_decrease l'
  end.

(** The elements whose text the part of [render] after the [await]
    writes. *)
Definition written_after_await (el : string) : bool :=
  String.eqb el "holidayText" || String.eqb el "holidayNameText" ||
  String.eqb el "noteText" || String.eqb el "businessDayText".

(** The number of calls of [render] that start a lookup. *)
Fixpoint lookups_started (evs : list event) : Z :=
  match evs with
  | [] => 0
  | e :: evs' => (if starts_lookup e then 1 else 0) + lookups_started evs'
  end.

(** The request ids in a state: the counter is not negative, the ids of
    the suspended calls lie between 1 and the counter and decrease from
    the latest call on (so no two calls share an id). *)
Definition ids_in_order (s : app) : Prop :=
  0 <= lastReqId s /\
  Forall (fun k => 1 <= reqId k <= lastReqId s) (awaiting s) /\
  ids_decrease (awaiting s).

(** A success response that names New Year's Day. *)
(** A value whose text on the page is [ToString] of it as embedded: a
    string, or an integer that a JavaScript number holds exactly (up to
    2^53 in size, far below 10^21 where the exponent form begins). *)
Definition plain_text (v : option json) : bool :=
  match v with
  | Some (JStr _) => true
  | Some (JNum n) => Z.abs n <=? 9007199254740992
  | _ => false
  end.

Definition new_years_day_reply : reply :=
  Response 200 (BodyJson (JArr [JObj {[ "name" := JStr "元日" ]}])).

(** [todayStr()] of the earlier version, from the local fields of
    [new Date()]: [getFullYear()], [getMonth()] and [getDate()]. *)
Definition todayStr (fullYear month date : num) : string :=
  String_num fullYear +:+ "-" +:+ pad2 (num_add month (Some 1)) +:+ "-" +:+
  pad2 date.

(** What is stored under [CACHE_KEY] is nothing that [loadCache] can use:
    no item, text that is not JSON, or a JSON value that is no object and
    no array. *)
Definition unusable (b : option blob) : bool :=
  match b with
  | None | Some Garbage => true
  | Some (Doc (JObj _)) | Some (Doc (JArr _)) => false
  | Some (Doc _) => true
  end.

(** * Properties *)

(** ** Cache *)

Section Cache.
Context `{Host}.

Lemma loadCache_saveCache (o : gmap string json) ls :
  accepts_writes ls = true -> loadCache (saveCache (JObj o) ls) = JObj o.
Proof. intros Hw. unfold saveCache, loadCache. rewrite Hw. reflexivity. Qed.

Lemma saveCache_refused cache ls :
  accepts_writes ls = false -> saveCache cache ls = ls.
Proof. intros Hw. unfold saveCache. rewrite Hw. reflexivity. Qed.

(** [loadCache] returns an object or an array, whatever is stored. *)
Lemma loadCache_shape ls :
  (exists o, loadCache ls = JObj o) \/ (exists xs, loadCache ls = JArr xs).
Proof.
  unfold loadCache.
  destruct (item ls) as [[|v]|]; eauto.
  destruct v; simpl; eauto.
  destruct b; simpl; eauto. destruct (n =? 0); simpl; eauto.
  destruct (String.eqb s ""); simpl; eauto.
Qed.

(** What [setCached] leaves in a storage that takes the write and holds
    a mapping (or nothing readable). *)
Lemma loadCache_setCached k payload now ls o :
  accepts_writes ls = true -> loadCache ls = JObj o ->
  loadCache (setCached k payload now ls) =
    JObj (<[k := JObj (<["ts" := JNum now]> payload)]> o).
Proof.
  intros Hw Ho. unfold setCached. rewrite Ho. simpl.
  by apply loadCache_saveCache.
Qed.

(** The read path of [getCached] on an entry with a numeric timestamp. *)
Lemma getCached_numeric_ts k later ls (e : gmap string json) ts :
  prop (loadCache ls) k = Some (JObj e) -> e !! "ts" = Some (JNum ts) ->
  getCached k later ls =
    if negb (ts =? 0) && (later - ts >? CACHE_TTL_MS) then None
    else Some (JObj e).
Proof.
  intros Hk Hts. unfold getCached. rewrite Hk. simpl. rewrite Hts. simpl.
  reflexivity.
Qed.

Lemma getCached_falsy_ts k now ls e :
  prop (loadCache ls) k = Some e -> truthy (Some e) = true ->
  truthy (prop e "ts") = false -> getCached k now ls = Some e.
Proof.
  intros Hk He Hts. unfold getCached. rewrite Hk, He. simpl.
  rewrite Hts. reflexivity.
Qed.

(** ** C10 *)

(** C10. An entry that has no [ts] field, or a falsy one such as zero,
    is returned by [getCached] at every clock value: the age test is
    guarded by [v.ts &&], so such an entry never expires. *)
Theorem entry_without_timestamp_never_expires k e ls :
  prop (loadCache ls) k = Some e -> truthy (Some e) = true ->
  (prop e "ts" = None \/ prop e "ts" = Some (JNum 0) \/
   truthy (prop e "ts") = false) ->
  forall now, getCached k now ls = Some e.
Proof.
  intros Hk He Hts now. apply getCached_falsy_ts; [done..|].
  destruct Hts as [-> | [-> | ->]]; reflexivity.
Qed.

(** ** C5 *)

(** C5, as amended.  When [localStorage] takes the write and what it
    held is not a JSON array, [setCached k r] followed by [getCached k]
    returns [r] plus the timestamp as long as the age is within the 120
    days; once the age exceeds them (the timestamp not being zero)
    [getCached k] returns nothing, and the entry is still in storage. *)
Theorem cache_round_trip k (r : gmap string json) now later ls :
  accepts_writes ls = true ->
  (forall xs, loadCache ls <> JArr xs) ->
  let ls' := setCached k r now ls in
  let entry := JObj (<["ts" := JNum now]> r) in
  (later - now <= CACHE_TTL_MS -> getCached k later ls' = Some entry) /\
  (later - now > CACHE_TTL_MS -> now <> 0 ->
     getCached k later ls' = None /\ prop (loadCache ls') k = Some entry).
Proof.
  intros Hw Harr ls' entry.
  destruct (loadCache_shape ls) as [[o Ho] | [xs Hxs]];
    [| by destruct (Harr xs)].
  assert (prop (loadCache ls') k = Some entry) as Hk.
  { subst ls'. rewrite (loadCache_setCached _ _ _ _ o) by done.
    simpl. apply lookup_insert_eq. }
  pose proof (getCached_numeric_ts k later ls' _ now Hk
                (lookup_insert_eq _ _ _)) as Hget.
  split.
  - intros Hage. rewrite Hget.
    destruct (Z.gtb_spec (later - now) CACHE_TTL_MS); [lia|].
    by rewrite andb_false_r.
  - intros Hage Hnow. split; [|done]. rewrite Hget.
    destruct (Z.eqb_spec now 0); [done|].
    destruct (Z.gtb_spec (later - now) CACHE_TTL_MS); [done|lia].
Qed.

End Cache.

(** The round trip on an empty storage, read back at once and again 121
    days later. *)
Lemma cache_round_trip_witness :
  (getCached "2024-01-01" 1704067200000
     (setCached "2024-01-01" payload_not 1704067200000 empty_storage) =
   Some (JObj (<["ts" := JNum 1704067200000]> payload_not))) /\
  (getCached "2024-01-01" 1714521600000
     (setCached "2024-01-01" payload_not 1704067200000 empty_storage) = None /\
   prop (loadCache (setCached "2024-01-01" payload_not 1704067200000 empty_storage))
        "2024-01-01" =
   Some (JObj (<["ts" := JNum 1704067200000]> payload_not))).
Proof.
  split.
  - apply (proj1 (cache_round_trip "2024-01-01" payload_not 1704067200000
                    1704067200000 empty_storage eq_refl ltac:(discriminate))).
    unfold CACHE_TTL_MS. lia.
  - apply (proj2 (cache_round_trip "2024-01-01" payload_not 1704067200000
                    1714521600000 empty_storage eq_refl ltac:(discriminate))).
    + unfold CACHE_TTL_MS. lia.
    + discriminate.
Defined.

(** C5 as written fails when [setItem] throws: the write is dropped and
    the read that follows finds nothing. *)
Lemma cache_round_trip_lost_when_storage_refuses :
  getCached "2024-01-01" 1704067200000
    (setCached "2024-01-01" payload_not 1704067200000 full_storage) = None /\
  ~ (forall (k : string) (r : gmap string json) (now : Z) (ls : localStorage),
       getCached k now (setCached k r now ls) =
         Some (JObj (<["ts" := JNum now]> r))).
Proof.
  split; [reflexivity|].
  intros Hall.
  specialize (Hall "2024-01-01" payload_not 1704067200000 full_storage).
  discriminate Hall.
Qed.

(** Two cases that the amended statement leaves aside.  A stored JSON
    array passes the [typeof] test of [loadCache]; the entry assigned to
    it is not serialised, so the write is lost.  And an entry written
    when the clock reads 0 has a falsy timestamp and never expires. *)
Lemma array_blob_drops_the_entry :
  getCached "2024-01-01" 1704067200000
    (setCached "2024-01-01" payload_not 1704067200000
       {| item := Some (Doc (JArr [])); accepts_writes := true |}) = None.
Proof. reflexivity. Qed.

Lemma entry_written_at_clock_zero_never_expires :
  getCached "2024-01-01" 1704067200000
    (setCached "2024-01-01" payload_not 0 empty_storage) =
  Some (JObj (<["ts" := JNum 0]> payload_not)).
Proof. reflexivity. Qed.

(** An entry without a timestamp, read in 2024 and 121 days later. *)
Lemma entry_without_timestamp_never_expires_witness :
  getCached "2024-01-01" 1704067200000 (storage_with (JObj payload_not)) =
    Some (JObj payload_not) /\
  getCached "2024-01-01" 1714521600000 (storage_with (JObj payload_not)) =
    Some (JObj payload_not).
Proof.
  split;
    apply (entry_without_timestamp_never_expires "2024-01-01"
             (JObj payload_not) (storage_with (JObj payload_not)));
    first [reflexivity | left; reflexivity].
Defined.

(** ** Resolver *)

Section Resolver.
Context `{Host}.

Lemma getHolidayByAPI_hit k now net later ls v :
  getCached k now ls = Some v ->
  getHolidayByAPI k now net later ls =
    {| result := v; storage := ls; requests := []; writes := [] |}.
Proof. intros Hc. unfold getHolidayByAPI. by rewrite Hc. Qed.

(** ** C4 *)

(** C4. When the cache holds an entry for the key whose age is within
    the 120 days, [getHolidayByAPI] resolves with that entry, hands no
    URL to [fetch], and leaves the storage alone. *)
Theorem fresh_entry_short_circuits k now net later ls
    (e : gmap string json) ts :
  prop (loadCache ls) k = Some (JObj e) ->
  e !! "ts" = Some (JNum ts) ->
  now - ts <= CACHE_TTL_MS ->
  let o := getHolidayByAPI k now net later ls in
  result o = JObj e /\ requests o = [] /\ writes o = [] /\ storage o = ls.
Proof.
  intros Hk Hts Hage o. subst o.
  rewrite (getHolidayByAPI_hit _ _ _ _ _ (JObj e)); [done|].
  rewrite (getCached_numeric_ts _ _ _ e ts) by done.
  destruct (Z.gtb_spec (now - ts) CACHE_TTL_MS); [lia|].
  by rewrite andb_false_r.
Qed.

(** ** C3 *)

Lemma payload_error_status message :
  payload_error message !! "status" = Some (JStr "error").
Proof. reflexivity. Qed.

(** The calls of [setCached] made by one lookup, and the results that go
    with them. *)
Lemma getHolidayByAPI_writes k now net later ls :
  let o := getHolidayByAPI k now net later ls in
  (writes o = [] /\ storage o = ls) \/
  (exists payload,
      writes o = [(k, payload)] /\
      storage o = setCached k payload later ls /\
      result o = JObj payload /\
      (payload !! "status" = Some (JStr "holiday") \/
       payload !! "status" = Some (JStr "not"))).
Proof.
  unfold getHolidayByAPI.
  destruct (getCached k now ls); [by left|].
  destruct net as [| |status b]; [by left..|].
  destruct (status =? 404).
  { right. eexists. repeat split. by right. }
  destruct (negb (ok status)); [by left|].
  destruct b as [j| |]; [|by left..].
  destruct (normalizeHolidayResponse j) as [i|]; [|by left].
  destruct (truthy (Some (info_name i))); [|by left].
  right. eexists. repeat split. by left.
Qed.

(** Storing a Holiday or NotHoliday payload brings no Error entry in. *)
Lemma setCached_no_error k (payload : gmap string json) now ls :
  (payload !! "status" = Some (JStr "holiday") \/
   payload !! "status" = Some (JStr "not")) ->
  ~ error_entry ls -> ~ error_entry (setCached k payload now ls).
Proof.
  intros Hst Hno (k' & e & Hk' & He). apply Hno.
  unfold setCached in Hk'.
  destruct (accepts_writes ls) eqn:Hw;
    [| rewrite saveCache_refused in Hk' by done; by exists k', e].
  destruct (loadCache_shape ls) as [[o Ho] | [xs Hxs]].
  - rewrite Ho in Hk'. simpl in Hk'. rewrite loadCache_saveCache in Hk' by done.
    simpl in Hk'. exists k', e. rewrite Ho. simpl. split; [|done].
    destruct (decide (k = k')) as [<- | Hne].
    + rewrite lookup_insert_eq in Hk'. injection Hk' as <-.
      simpl in He. rewrite lookup_insert_ne in He by done.
      destruct Hst as [Hst | Hst]; rewrite Hst in He; discriminate He.
    + by rewrite lookup_insert_ne in Hk'.
  - rewrite Hxs in Hk'. simpl in Hk'.
    unfold saveCache in Hk'. rewrite Hw in Hk'. discriminate Hk'.
Qed.

Lemma getHolidayByAPI_no_error k now net later ls :
  ~ error_entry ls ->
  ~ error_entry (storage (getHolidayByAPI k now net later ls)).
Proof.
  intros Hno.
  destruct (getHolidayByAPI_writes k now net later ls)
    as [[_ ->] | (payload & _ & -> & _ & Hst)]; [done|].
  by apply setCached_no_error.
Qed.

Lemma storage_after_no_error cs ls :
  ~ error_entry ls -> ~ error_entry (storage_after cs ls).
Proof.
  revert ls. induction cs as [|c cs IH]; intros ls Hno; [done|].
  simpl. apply IH. by apply getHolidayByAPI_no_error.
Qed.

Lemma no_error_entry_initially w :
  ~ error_entry {| item := None; accepts_writes := w |}.
Proof. intros (k & e & Hk & _). discriminate Hk. Qed.

(** C3. [getHolidayByAPI] calls [setCached] only with the result it
    resolves with, and only when that result is Holiday or NotHoliday; a
    lookup that resolves with status Error writes nothing and leaves the
    storage as it was; so a storage without an Error entry stays without
    one, through any sequence of lookups, and a storage that starts
    empty never holds one. *)
Theorem errors_are_never_cached k now net later ls :
  let o := getHolidayByAPI k now net later ls in
  (forall key payload, (key, payload) ∈ writes o ->
     key = k /\ result o = JObj payload /\
     storage o = setCached k payload later ls /\
     (payload !! "status" = Some (JStr "holiday") \/
      payload !! "status" = Some (JStr "not"))) /\
  (writes o = [] -> storage o = ls) /\
  (is_str (prop (result o) "status") "error" = true ->
     writes o = [] /\ storage o = ls) /\
  (forall cs, ~ error_entry ls -> ~ error_entry (storage_after cs ls)) /\
  (forall cs w,
     ~ error_entry (storage_after cs {| item := None; accepts_writes := w |})).
Proof.
  intros o.
  pose proof (getHolidayByAPI_writes k now net later ls) as Hw.
  fold o in Hw.
  split; [|split; [|split; [|split]]].
  - intros key payload Hin.
    destruct Hw as [[Hw _] | (p & Hw & Hs & Hr & Hst)]; rewrite Hw in Hin.
    + by apply elem_of_nil in Hin.
    + apply list_elem_of_singleton in Hin. injection Hin as -> ->. done.
  - intros Hnil. destruct Hw as [[_ ->] | (p & Hw & _)]; [done|].
    rewrite Hw in Hnil. discriminate Hnil.
  - intros Herr. destruct Hw as [Hw | (p & _ & _ & Hr & Hst)]; [done|].
    rewrite Hr in Herr. simpl in Herr.
    destruct Hst as [Hst | Hst]; rewrite Hst in Herr; discriminate Herr.
  - intros cs. apply storage_after_no_error.
  - intros cs w. apply storage_after_no_error, no_error_entry_initially.
Qed.

(** ** C2 *)

Lemma or_empty_nonempty_field o f :
  or_empty (prop o f) = default (JStr "") (nonempty_field o f).
Proof.
  unfold or_empty, nonempty_field.
  destruct (prop o f) as [v|]; [|done]. by destruct (truthy (Some v)).
Qed.

Lemma or_empty_idem v : or_empty (Some (or_empty v)) = or_empty v.
Proof.
  unfold or_empty. destruct v as [x|]; [|done].
  destruct (truthy (Some x)) eqn:E; [by rewrite E | done].
Qed.

(** [first.name || first.title || ""] against the words "a non-empty
    name (or title) field". *)
Lemma name_or_title o :
  match nonempty_field o "name", nonempty_field o "title" with
  | Some n, _ | None, Some n =>
      or_empty (js_or (prop o "name") (prop o "title")) = n /\
      truthy (Some n) = true
  | None, None =>
      truthy (Some (or_empty (js_or (prop o "name") (prop o "title")))) = false
  end.
Proof.
  unfold nonempty_field, js_or, or_empty.
  destruct (prop o "name") as [n|].
  - destruct (truthy (Some n)) eqn:En; [by rewrite ?En|].
    destruct (prop o "title") as [t|]; [|done].
    destruct (truthy (Some t)) eqn:Et; by rewrite ?Et.
  - change (truthy None) with false. cbv iota.
    destruct (prop o "title") as [t|]; [|done].
    destruct (truthy (Some t)) eqn:Et; by rewrite ?Et.
Qed.

(** [normalizeHolidayResponse] followed by the test [info && info.name],
    against [payload_name]. *)
Lemma normalizeHolidayResponse_name j :
  match payload_name j with
  | Some (n, ty) =>
      exists i, normalizeHolidayResponse j = Some i /\ info_name i = n /\
                truthy (Some n) = true /\
                or_empty (Some (info_type i)) = default (JStr "") ty
  | None =>
      match normalizeHolidayResponse j with
      | Some i => truthy (Some (info_name i)) = false
      | None => True
      end
  end.
Proof.
  assert (forall o : gmap string json,
    match payload_name (JObj o) with
    | Some (n, ty) =>
        or_empty (js_or (prop (JObj o) "name") (prop (JObj o) "title")) = n /\
        truthy (Some n) = true /\
        or_empty (Some (or_empty (prop (JObj o) "type"))) = default (JStr "") ty
    | None =>
        truthy (Some (or_empty (js_or (prop (JObj o) "name")
                                      (prop (JObj o) "title")))) = false
    end) as Hobj.
  { intros o. unfold payload_name, payload_object.
    pose proof (name_or_title (JObj o)) as Hn.
    destruct (nonempty_field (JObj o) "name") as [n|],
             (nonempty_field (JObj o) "title") as [t|];
      [destruct Hn as [Hn1 Hn2] .. | done];
      (split; [done | split; [done|]]);
      by rewrite or_empty_idem, or_empty_nonempty_field. }
  destruct j as [|b|n|s|xs|o].
  - done.
  - by destruct b.
  - simpl. unfold normalizeHolidayResponse. by destruct (truthy (Some (JNum n))).
  - simpl. unfold normalizeHolidayResponse. by destruct (truthy (Some (JStr s))).
  - (* an array *)
    destruct xs as [|f xs]; [done|].
    destruct f as [|b|n|s|ys|o].
    + done.
    + by destruct b.
    + simpl. unfold normalizeHolidayResponse. simpl.
      by destruct (negb (n =? 0)).
    + simpl. unfold normalizeHolidayResponse. simpl.
      by destruct (negb (String.eqb s "")).
    + done.
    + specialize (Hobj o).
      change (payload_name (JArr (JObj o :: xs))) with (payload_name (JObj o)).
      destruct (payload_name (JObj o)) as [[n ty]|]; [|done].
      destruct Hobj as (? & ? & ?). by eexists.
  - (* a single object *)
    specialize (Hobj o).
    destruct (payload_name (JObj o)) as [[n ty]|]; [|done].
    destruct Hobj as (? & ? & ?). by eexists.
Qed.

(** C2, as amended.  On a cache miss [getHolidayByAPI] asks the network
    once and resolves with: NotHoliday on status 404; Holiday with the
    name (and the type, if any) when the status is a success and the
    body is JSON that is an object, or an array whose first element is
    an object, with a non-empty name (or title); Error "unexpected
    response" when the status is a success and the JSON body yields no
    name; Error "HTTP <code>" on any other status; Error "network" on a
    timeout, on a transport fault, and also when the body of a success
    response cannot be read as JSON. *)
Theorem miss_is_classified k now net later ls :
  getCached k now ls = None ->
  let o := getHolidayByAPI k now net later ls in
  result o = result_object (classify (Error "network") net) /\
  requests o = [API_BASE +:+ encodeURIComponent k].
Proof.
  intros Hmiss o. subst o. unfold getHolidayByAPI. rewrite Hmiss.
  destruct net as [| |status b]; [done..|].
  unfold classify.
  destruct (status =? 404); [done|].
  destruct (ok status); cbn [negb]; [|done].
  destruct b as [j| |]; [|done..].
  pose proof (normalizeHolidayResponse_name j) as Hn.
  destruct (payload_name j) as [[n ty]|].
  - destruct Hn as (i & -> & <- & Ht & Hty). rewrite Ht.
    unfold result_object. by rewrite Hty.
  - destruct (normalizeHolidayResponse j) as [i|]; [|done].
    by rewrite Hn.
Qed.

End Resolver.

(** A fresh NotHoliday entry for 2024-01-01, looked up a day after it was
    stored while the network is down. *)
Lemma fresh_entry_short_circuits_witness :
  result (getHolidayByAPI "2024-01-01" 1704153600000 TransportFault
            1704153600000
            (storage_with (JObj (<["ts" := JNum 1704067200000]> payload_not)))) =
    JObj (<["ts" := JNum 1704067200000]> payload_not) /\
  requests (getHolidayByAPI "2024-01-01" 1704153600000 TransportFault
              1704153600000
              (storage_with (JObj (<["ts" := JNum 1704067200000]> payload_not)))) =
    [].
Proof.
  pose proof (fresh_entry_short_circuits "2024-01-01" 1704153600000
                TransportFault 1704153600000
                (storage_with (JObj (<["ts" := JNum 1704067200000]> payload_not)))
                (<["ts" := JNum 1704067200000]> payload_not) 1704067200000
                eq_refl eq_refl ltac:(unfold CACHE_TTL_MS; lia))
    as (Hr & Hq & _).
  split; [exact Hr | exact Hq].
Defined.

(** A miss on an empty storage, answered 200 with a holiday object. *)
Lemma miss_is_classified_witness :
  result (getHolidayByAPI "2024-01-01" 1704067200000
            (Response 200 (BodyJson (JArr [JObj {[ "name" := JStr "元日" ]}])))
            1704067200500 empty_storage) =
    JObj (payload_holiday (JStr "元日") (JStr "")) /\
  requests (getHolidayByAPI "2024-01-01" 1704067200000
              (Response 200 (BodyJson (JArr [JObj {[ "name" := JStr "元日" ]}])))
              1704067200500 empty_storage) =
    ["https://api.national-holidays.jp/2024-01-01"].
Proof.
  exact (miss_is_classified "2024-01-01" 1704067200000
           (Response 200 (BodyJson (JArr [JObj {[ "name" := JStr "元日" ]}])))
           1704067200500 empty_storage eq_refl).
Defined.

(** C2 as written fails on a success response whose body is not JSON:
    [res.json()] rejects, the [catch] answers "network", and the sentence
    asks for "unexpected response". *)
Lemma unreadable_body_is_a_network_error :
  getCached "2024-01-01" 1704067200000 empty_storage = None /\
  result (getHolidayByAPI "2024-01-01" 1704067200000
            (Response 200 BodyNotJson) 1704067200500 empty_storage) =
    result_object (Error "network") /\
  classify_as_specified (Response 200 BodyNotJson) = Error "unexpected response" /\
  result (getHolidayByAPI "2024-01-01" 1704067200000
            (Response 200 BodyNotJson) 1704067200500 empty_storage) <>
    result_object (classify_as_specified (Response 200 BodyNotJson)).
Proof. repeat split. discriminate. Qed.

(** ** The texts of the page *)

Lemma lookup_set_text_eq el s p : text (set_text el s p) !! el = Some s.
Proof. apply lookup_insert_eq. Qed.

Lemma lookup_set_text_ne el s p el' :
  el <> el' -> text (set_text el s p) !! el' = text p !! el'.
Proof. intros Hne. by apply lookup_insert_ne. Qed.

Lemma text_addBadge label kind p : text (addBadge label kind p) = text p.
Proof. reflexivity. Qed.

Lemma text_clearBadges p : text (clearBadges p) = text p.
Proof. reflexivity. Qed.

Lemma text_setHolidayName_ne name p el :
  el <> "holidayNameText" -> text (setHolidayName name p) !! el = text p !! el.
Proof.
  intros Hne. unfold setHolidayName.
  destruct (truthy (Some name)); cbn [text]; by rewrite lookup_insert_ne.
Qed.

Lemma text_setNote_ne msg p el :
  el <> "noteText" -> text (setNote msg p) !! el = text p !! el.
Proof. intros Hne. unfold setNote. by apply lookup_set_text_ne. Qed.

Lemma text_weekendBadge w p : text (weekendBadge w p) = text p.
Proof. reflexivity. Qed.

(** ** Render and the request counter *)

Section Render.
Context `{Host}.

Lemma take_suspended_id id l k rest :
  take_suspended id l = Some (k, rest) -> reqId k = id.
Proof.
  revert k rest. induction l as [|k0 l IH]; intros k rest; [done|].
  simpl. destruct (Z.eqb_spec (reqId k0) id) as [Heq | Hne].
  - by intros [= <- <-].
  - destruct (take_suspended id l) as [[k' rest']|]; [|done].
    intros [= <- <-]. by eapply IH.
Qed.

Lemma take_suspended_elem id l k rest :
  take_suspended id l = Some (k, rest) -> k ∈ l.
Proof.
  revert k rest. induction l as [|k0 l IH]; intros k rest; [done|].
  simpl. destruct (reqId k0 =? id).
  - intros [= <- <-]. apply list_elem_of_here.
  - destruct (take_suspended id l) as [[k' rest']|]; [|done].
    intros [= <- <-]. apply list_elem_of_further. by eapply IH.
Qed.

Lemma take_suspended_Forall (P : suspended -> Prop) id l k rest :
  take_suspended id l = Some (k, rest) -> Forall P l -> Forall P rest.
Proof.
  revert k rest. induction l as [|k0 l IH]; intros k rest; [done|].
  simpl. destruct (reqId k0 =? id).
  - intros [= <- <-] HP. by inversion HP.
  - destruct (take_suspended id l) as [[k' rest']|]; [|done].
    intros [= <- <-] HP. inversion HP; subst.
    constructor; [done|]. by eapply IH.
Qed.

(** [render] with a date issues the next request id and suspends, in
    both versions. *)
Lemma render_issues v dateStr today s :
  dateStr <> "" ->
  lastReqId (render_of v dateStr today s) = lastReqId s + 1 /\
  exists w, awaiting (render_of v dateStr today s) =
              {| reqId := lastReqId s + 1; isWeekend := w |} :: awaiting s.
Proof.
  intros Hne.
  destruct v; simpl; unfold render, Earlier.render;
    (destruct (String.eqb_spec dateStr ""); [done|]);
    (split; [done|]); by eexists.
Qed.

(** [render("")] neither issues an id nor suspends. *)
Lemma render_empty v today s :
  lastReqId (render_of v "" today s) = lastReqId s /\
  awaiting (render_of v "" today s) = awaiting s.
Proof. by destruct v. Qed.

Lemma render_lastReqId v dateStr today s :
  lastReqId s <= lastReqId (render_of v dateStr today s).
Proof.
  destruct v; simpl; unfold render, Earlier.render;
    destruct (String.eqb dateStr ""); simpl; lia.
Qed.

Lemma render_issued v dateStr today s :
  issued s -> issued (render_of v dateStr today s).
Proof.
  unfold issued. intros Hs.
  destruct v; simpl; unfold render, Earlier.render;
    (destruct (String.eqb dateStr ""); simpl; [done|]);
    (constructor; simpl; [lia|]);
    (eapply Forall_impl; [exact Hs|]); simpl; intros; lia.
Qed.

(** The token comparison: the rest of a call that is not the latest
    leaves the document as it is. *)
Lemma render_rest_stale v k result s :
  reqId k <> lastReqId s -> render_rest_of v k result s = dom s.
Proof.
  intros Hne.
  destruct v; simpl; unfold render_rest, Earlier.render_rest;
    by destruct (Z.eqb_spec (reqId k) (lastReqId s)).
Qed.

(** The rest of a call reads the counter and the document, nothing else
    of the state. *)
Lemma render_rest_reads v k result s s0 :
  lastReqId s = lastReqId s0 -> dom s = dom s0 ->
  render_rest_of v k result s = render_rest_of v k result s0.
Proof.
  intros Hl Hd.
  destruct v; simpl; unfold render_rest, Earlier.render_rest;
    by rewrite Hl, Hd.
Qed.

Lemma step_lastReqId v s e : lastReqId s <= lastReqId (step v s e).
Proof.
  destruct e as [dateStr today | id result]; simpl.
  - apply render_lastReqId.
  - destruct (take_suspended id (awaiting s)) as [[k rest]|]; simpl; lia.
Qed.

Lemma run_lastReqId v evs s : lastReqId s <= lastReqId (run v evs s).
Proof.
  revert s. induction evs as [|e evs IH]; intros s; simpl; [lia|].
  pose proof (step_lastReqId v s e). pose proof (IH (step v s e)).
  unfold run in *. lia.
Qed.

Lemma step_issued v s e : issued s -> issued (step v s e).
Proof.
  intros Hs.
  destruct e as [dateStr today | id result]; simpl.
  - by apply render_issued.
  - destruct (take_suspended id (awaiting s)) as [[k rest]|] eqn:Ht; [|done].
    unfold issued in *. simpl. by eapply take_suspended_Forall.
Qed.

Lemma run_issued v evs s : issued s -> issued (run v evs s).
Proof.
  revert s. induction evs as [|e evs IH]; intros s Hs; [done|].
  simpl. apply IH. by apply step_issued.
Qed.

(** A lookup that is not the latest changes nothing when it settles. *)
Lemma settle_stale v s id result :
  id <> lastReqId s ->
  dom (step v s (Settle id result)) = dom s /\
  lastReqId (step v s (Settle id result)) = lastReqId s.
Proof.
  intros Hne. simpl.
  destruct (take_suspended id (awaiting s)) as [[k rest]|] eqn:Ht; [|done].
  simpl. split; [|done]. apply render_rest_stale.
  by rewrite (take_suspended_id _ _ _ _ Ht).
Qed.

(** Once the latest lookup has settled, whatever settles afterwards
    paints nothing. *)
Lemma settles_after_done v evs s :
  forallb is_settle evs = true ->
  Forall (fun k => reqId k < lastReqId s) (awaiting s) ->
  dom (run v evs s) = dom s.
Proof.
  revert s. induction evs as [|e evs IH]; intros s Hevs Hold; [done|].
  destruct e as [|id result]; [done|]. simpl in Hevs.
  change (run v (Settle id result :: evs) s)
    with (run v evs (step v s (Settle id result))).
  destruct (take_suspended id (awaiting s)) as [[k rest]|] eqn:Ht.
  - assert (reqId k < lastReqId s) as Hlt.
    { eapply Forall_forall in Hold; [exact Hold|].
      by eapply take_suspended_elem. }
    pose proof (settle_stale v s id result) as [Hd Hl].
    { rewrite <- (take_suspended_id _ _ _ _ Ht). lia. }
    rewrite IH; [done | done |].
    rewrite Hl. simpl. rewrite Ht. simpl.
    by eapply take_suspended_Forall.
  - simpl. rewrite Ht. by apply IH.
Qed.

(** While the latest call [kB] waits at the head of the list, other
    lookups settling leave the page as it is; when the latest lookup
    settles, its result is painted on that page; after that nothing is
    painted. *)
Lemma settles_after_latest v kB s0 evs s tl :
  forallb is_settle evs = true ->
  reqId kB = lastReqId s0 ->
  lastReqId s = lastReqId s0 -> dom s = dom s0 ->
  awaiting s = kB :: tl ->
  Forall (fun k => reqId k < lastReqId s0) tl ->
  dom (run v evs s) =
    match first_settle (lastReqId s0) evs with
    | Some result => render_rest_of v kB result s0
    | None => dom s0
    end.
Proof.
  intros Hevs HkB. revert s tl Hevs.
  induction evs as [|e evs IH]; intros s tl Hevs Hl Hd Ha Htl; [done|].
  destruct e as [|id result]; [done|]. simpl in Hevs.
  change (run v (Settle id result :: evs) s)
    with (run v evs (step v s (Settle id result))).
  simpl first_settle.
  destruct (Z.eqb_spec id (lastReqId s0)) as [-> | Hne].
  - (* the latest lookup settles *)
    assert (step v s (Settle (lastReqId s0) result) =
            {| lastReqId := lastReqId s0;
               dom := render_rest_of v kB result s0;
               awaiting := tl |}) as ->.
    { simpl. rewrite Ha. simpl. rewrite HkB, Z.eqb_refl. f_equal; [done|].
      by apply render_rest_reads. }
    by rewrite settles_after_done.
  - (* another lookup settles *)
    pose proof (settle_stale v s id result ltac:(congruence)) as [Hd' Hl'].
    assert (exists tl', awaiting (step v s (Settle id result)) = kB :: tl' /\
                        Forall (fun k => reqId k < lastReqId s0) tl')
      as (tl' & Ha' & Htl').
    { simpl. rewrite Ha. simpl. rewrite HkB.
      destruct (Z.eqb_spec (lastReqId s0) id); [congruence|].
      destruct (take_suspended id tl) as [[k rest]|] eqn:Ht.
      - exists rest. split; [done|]. by eapply take_suspended_Forall.
      - exists tl. by rewrite Ha. }
    apply (IH _ tl'); [done | congruence | congruence | done | done].
Qed.

(** The texts a settled lookup leaves in the holiday line. *)
Lemma render_rest_of_holidayText v k result s :
  reqId k = lastReqId s ->
  text (render_rest_of v k result s) !! "holidayText" =
    Some (if is_str (prop result "status") "holiday" then "祝日"
          else if is_str (prop result "status") "not" then "祝日ではありません"
          else "取得失敗（通信/応答）").
Proof.
  intros Hid.
  destruct v; cbn [render_rest_of]; unfold render_rest, Earlier.render_rest;
    rewrite Hid, Z.eqb_refl; cbn [negb];
    destruct (is_str (prop result "status") "holiday");
    [| destruct (is_str (prop result "status") "not") | |
     destruct (is_str (prop result "status") "not")];
    try destruct (truthy (Some (or_empty (prop result "type"))));
    rewrite ?text_addBadge, ?lookup_set_text_ne, ?text_setNote_ne,
      ?text_addBadge, ?text_setNote_ne, ?text_setHolidayName_ne,
      ?text_addBadge by done;
    apply lookup_set_text_eq.
Qed.

(** A call of [render] with a date leaves the holiday line pending, in
    both versions. *)
Lemma render_of_holidayText_pending v dateStr today s :
  dateStr <> "" ->
  text (dom (render_of v dateStr today s)) !! "holidayText" = Some "判定中…".
Proof.
  intros Hne.
  destruct v; cbn [render_of]; unfold render, Earlier.render;
    (destruct (String.eqb_spec dateStr ""); [done|]); cbv zeta; cbn [dom].
  - rewrite text_addBadge. apply lookup_set_text_eq.
  - rewrite lookup_set_text_ne by done. apply lookup_set_text_eq.
Qed.

(** ** C1 *)

(** C1. In either version of the script, let lookup A be started by
    [render dateA] in any state the script can reach, and lookup B by a
    later [render dateB], whatever happens in between.  Then B's request
    id is greater than A's; from then on, whenever A settles and whatever
    its result, the document and the counter stay as they are; and
    through every sequence of lookups settling, in any order, the
    document is the one B's call left, until B settles, and from then on
    the one B's result was painted on: the holiday line reads "pending"
    until B settles and from then on what the status of B's result
    says, whatever A's result was. *)
Theorem only_latest_lookup_is_shown v p0 evs0 dateA todayA mid dateB todayB :
  dateA <> "" -> dateB <> "" ->
  let sA := render_of v dateA todayA (run v evs0 (initial p0)) in
  let sB := render_of v dateB todayB (run v mid sA) in
  lastReqId sA < lastReqId sB /\
  (forall evs resultA,
     dom (step v (run v evs sB) (Settle (lastReqId sA) resultA)) =
       dom (run v evs sB) /\
     lastReqId (step v (run v evs sB) (Settle (lastReqId sA) resultA)) =
       lastReqId (run v evs sB)) /\
  (exists kB,
     head (awaiting sB) = Some kB /\ reqId kB = lastReqId sB /\
     forall evs, forallb is_settle evs = true ->
       dom (run v evs sB) =
         match first_settle (lastReqId sB) evs with
         | Some resultB => render_rest_of v kB resultB sB
         | None => dom sB
         end /\
       text (dom (run v evs sB)) !! "holidayText" =
         Some (match first_settle (lastReqId sB) evs with
               | Some resultB =>
                   if is_str (prop resultB "status") "holiday" then "祝日"
                   else if is_str (prop resultB "status") "not"
                        then "祝日ではありません"
                        else "取得失敗（通信/応答）"
               | None => "判定中…"
               end)).
Proof.
  intros HA HB sA sB.
  pose proof (render_issues v dateB todayB (run v mid sA) HB) as [HlB [w HaB]].
  fold sB in HlB, HaB.
  pose proof (run_lastReqId v mid sA) as Hmid.
  assert (lastReqId sA < lastReqId sB) as Hlt by lia.
  split; [done|]. split.
  - intros evs resultA. apply settle_stale.
    pose proof (run_lastReqId v evs sB). lia.
  - exists {| reqId := lastReqId (run v mid sA) + 1; isWeekend := w |}.
    rewrite HaB. split; [done|]. split; [done|].
    intros evs Hevs.
    assert (dom (run v evs sB) =
            match first_settle (lastReqId sB) evs with
            | Some resultB =>
                render_rest_of v
                  {| reqId := lastReqId (run v mid sA) + 1; isWeekend := w |}
                  resultB sB
            | None => dom sB
            end) as Hdom.
    { apply (settles_after_latest v _ sB evs sB (awaiting (run v mid sA)));
        try done.
      assert (issued (run v mid sA)) as Hiss.
      { apply run_issued. unfold sA. apply render_issued.
        apply run_issued. constructor. }
      eapply Forall_impl; [exact Hiss|]. simpl. intros; lia. }
    split; [exact Hdom|]. rewrite Hdom.
    destruct (first_settle (lastReqId sB) evs) as [resultB|].
    + by rewrite render_rest_of_holidayText.
    + by apply render_of_holidayText_pending.
Qed.

(** ** C9 *)



End Render.

(** Lookup A for 2024-01-01 and then lookup B for 2024-01-06 on a fresh
    page: A's id is smaller, A settling changes nothing, the page ends
    the same whichever of the two settles first, and it ends with B's
    failed lookup in the holiday line, not with A's answer. *)
Lemma only_latest_lookup_is_shown_witness :
  lastReqId lookup_A_started < lastReqId lookup_B_started /\
  dom (step CurrentScript lookup_B_started (Settle 1 (JObj payload_not))) =
    dom lookup_B_started /\
  dom (run CurrentScript
         [Settle 1 (JObj payload_not);
          Settle 2 (JObj (payload_error "network"))] lookup_B_started) =
  dom (run CurrentScript
         [Settle 2 (JObj (payload_error "network"));
          Settle 1 (JObj payload_not)] lookup_B_started) /\
  text (dom (run CurrentScript
               [Settle 2 (JObj (payload_error "network"));
                Settle 1 (JObj payload_not)] lookup_B_started))
    !! "holidayText" = Some "取得失敗（通信/応答）".
Proof.
  destruct (only_latest_lookup_is_shown CurrentScript blank_page []
              "2024-01-01" "2024-01-01" [] "2024-01-06" "2024-01-01"
              ltac:(discriminate) ltac:(discriminate))
    as (Hlt & Hstale & kB & _ & _ & Hfinal).
  split; [exact Hlt|].
  split; [exact (proj1 (Hstale [] (JObj payload_not)))|].
  split.
  - exact (eq_trans
             (proj1 (Hfinal [Settle 1 (JObj payload_not);
                             Settle 2 (JObj (payload_error "network"))] eq_refl))
             (eq_sym
                (proj1 (Hfinal [Settle 2 (JObj (payload_error "network"));
                                Settle 1 (JObj payload_not)] eq_refl)))).
  - exact (proj2 (Hfinal [Settle 2 (JObj (payload_error "network"));
                          Settle 1 (JObj payload_not)] eq_refl)).
Defined.

(** [render("")] issues no request id: a lookup started before the page
    is cleared is still the latest one, and its result is painted on the
    cleared page. *)
Lemma clearing_does_not_supersede :
  text (dom (run CurrentScript
               [Render "" "2024-01-01"; Settle 1 (JObj payload_not)]
               lookup_A_started)) !! "holidayText" =
    Some "祝日ではありません" /\
  text (dom (run CurrentScript
               [Render "" "2024-01-01"; Settle 1 (JObj payload_not)]
               lookup_A_started)) !! "datePretty" = Some "—".
Proof. split; vm_compute; reflexivity. Qed.


(** ** Time values *)

Lemma isLeap_true_iff yr :
  isLeap yr = true <-> (yr mod 4 = 0 /\ yr mod 100 <> 0) \/ yr mod 400 = 0.
Proof.
  unfold isLeap.
  rewrite orb_true_iff, andb_true_iff, negb_true_iff, !Z.eqb_eq, Z.eqb_neq.
  tauto.
Qed.

Lemma DayFromYear_succ yr :
  DayFromYear (yr + 1) = DayFromYear yr + DaysInYear yr.
Proof.
  unfold DaysInYear.
  destruct (isLeap yr) eqn:E.
  - apply isLeap_true_iff in E. unfold DayFromYear.
    Z.div_mod_to_equations. lia.
  - assert (~ ((yr mod 4 = 0 /\ yr mod 100 <> 0) \/ yr mod 400 = 0)) as E'.
    { rewrite <- isLeap_true_iff, E. discriminate. }
    unfold DayFromYear. Z.div_mod_to_equations. lia.
Qed.

Lemma DayFromYear_le y1 y2 : y1 <= y2 -> DayFromYear y1 <= DayFromYear y2.
Proof. unfold DayFromYear. intros. Z.div_mod_to_equations. lia. Qed.

Lemma YearFromTime_bounds t :
  DayFromYear (YearFromTime t) <= Day t < DayFromYear (YearFromTime t + 1).
Proof.
  unfold YearFromTime.
  set (d := Day t). set (y0 := 1970 + 400 * d / 146097).
  assert (DayFromYear (y0 - 1) <= d) as Hlo.
  { subst y0. unfold DayFromYear. Z.div_mod_to_equations. lia. }
  assert (d < DayFromYear (y0 + 2)) as Hhi.
  { subst y0. unfold DayFromYear. Z.div_mod_to_equations. lia. }
  destruct (Z.leb_spec (DayFromYear (y0 + 1)) d) as [E1 | E1].
  - replace (y0 + 1 + 1) with (y0 + 2) by lia. lia.
  - destruct (Z.leb_spec (DayFromYear y0) d) as [E2 | E2]; [lia|].
    replace (y0 - 1 + 1) with y0 by lia. lia.
Qed.

Lemma YearFromTime_unique t yr :
  DayFromYear yr <= Day t < DayFromYear (yr + 1) -> YearFromTime t = yr.
Proof.
  intros [Hlo Hhi]. pose proof (YearFromTime_bounds t) as [Blo Bhi].
  destruct (Z.lt_trichotomy (YearFromTime t) yr) as [Hlt | [Heq | Hgt]]; [| done |].
  - pose proof (DayFromYear_le (YearFromTime t + 1) yr ltac:(lia)). lia.
  - pose proof (DayFromYear_le (yr + 1) (YearFromTime t) ltac:(lia)). lia.
Qed.

(** [YearFromTime] is what the standard defines: the largest year whose
    first instant is not after [t]. *)
Lemma YearFromTime_largest t :
  TimeFromYear (YearFromTime t) <= t /\
  forall yr, TimeFromYear yr <= t -> yr <= YearFromTime t.
Proof.
  pose proof (YearFromTime_bounds t) as [Blo Bhi].
  unfold TimeFromYear, Day, msPerDay in *. split.
  - Z.div_mod_to_equations. lia.
  - intros yr Hyr.
    destruct (Z.le_gt_cases yr (YearFromTime t)) as [|Hgt]; [done|].
    pose proof (DayFromYear_le (YearFromTime t + 1) yr ltac:(lia)).
    Z.div_mod_to_equations. lia.
Qed.

Lemma Day_MakeDate d : Day (MakeDate d 0) = d.
Proof. unfold Day, MakeDate, msPerDay. Z.div_mod_to_equations. lia. Qed.

Ltac month_cases m :=
  let Hc := fresh "Hc" in
  assert (m = 0 \/ m = 1 \/ m = 2 \/ m = 3 \/ m = 4 \/ m = 5 \/ m = 6 \/
          m = 7 \/ m = 8 \/ m = 9 \/ m = 10 \/ m = 11) as Hc by lia;
  repeat (destruct Hc as [-> | Hc]); [.. | subst m].

Ltac ltb_chain :=
  repeat match goal with
         | |- context [?a <? ?b] => destruct (Z.ltb_spec a b); try lia
         end.

(** The fields of a civil date come back from the time value that
    [MakeDay] and [MakeDate] build for it. *)
Lemma civil_roundtrip yr m d :
  0 <= m <= 11 -> 1 <= d <= DaysInMonth (isLeap yr) m ->
  let t := MakeDate (MakeDay yr m d) 0 in
  YearFromTime t = yr /\ MonthFromTime t = m /\ DateFromTime t = d.
Proof.
  intros Hm Hd t.
  assert (m / 12 = 0) as Hq by (Z.div_mod_to_equations; lia).
  assert (m mod 12 = m) as Hr by (Z.div_mod_to_equations; lia).
  assert (Day t = DayFromYear yr + MonthStart (if isLeap yr then 1 else 0) m + d - 1) as HD.
  { subst t. rewrite Day_MakeDate. unfold MakeDay. rewrite Hq, Hr, Z.add_0_r. lia. }
  assert (0 <= MonthStart (if isLeap yr then 1 else 0) m + d - 1 < DaysInYear yr) as Hin.
  { unfold DaysInYear. clear HD Hq Hr t.
    month_cases m; destruct (isLeap yr); cbn in *; lia. }
  assert (YearFromTime t = yr) as HY.
  { apply YearFromTime_unique. rewrite DayFromYear_succ. lia. }
  split; [done|].
  unfold DateFromTime, MonthFromTime, InLeapYear, DayWithinYear.
  rewrite HY, HD. clear HY HD Hq Hr Hin t.
  month_cases m; destruct (isLeap yr); cbn in Hd |- *;
    ltb_chain; cbn; lia.
Qed.

(** The day [MakeDay] finds is the one the standard asks for: the first
    day of the month has the year, the month and date 1. *)
Lemma MakeDay_first_of_month yr m :
  0 <= m <= 11 ->
  let t := MakeDate (MakeDay yr m 1) 0 in
  YearFromTime t = yr /\ MonthFromTime t = m /\ DateFromTime t = 1.
Proof.
  intros Hm. apply civil_roundtrip; [done|].
  unfold DaysInMonth. month_cases m; destruct (isLeap yr); cbn; lia.
Qed.

(** ** Week positions *)

Lemma mondayStartUTC_valid t m :
  mondayStartUTC (Some t) = Some m ->
  m = t - ((WeekDay t + 6) mod 7) * msPerDay.
Proof.
  unfold mondayStartUTC, getUTCDay, getTime, new_Date. simpl.
  unfold TimeClip.
  destruct (_ >? _); [done|]. intros [= <-].
  rewrite Z.rem_mod_nonneg; [done| |lia].
  unfold WeekDay. Z.div_mod_to_equations. lia.
Qed.

Lemma mondayStartUTC_anchor t m :
  mondayStartUTC (Some t) = Some m -> mondayAnchor_of m t.
Proof.
  intros ->%mondayStartUTC_valid. unfold mondayAnchor_of, WeekDay, Day, msPerDay.
  repeat split.
  - Z.div_mod_to_equations. lia.
  - Z.div_mod_to_equations. lia.
  - Z.div_mod_to_equations. lia.
  - Z.div_mod_to_equations. lia.
Qed.

(** Every Date that [Date.UTC] builds is a UTC midnight. *)
Lemma Date_UTC_midnight yr m d t :
  Date_UTC yr m d = Some t -> t mod msPerDay = 0.
Proof.
  unfold Date_UTC, TimeClip, MakeDate.
  destruct yr as [yr|], m as [m|], d as [d|]; try done.
  destruct (_ >? _); [done|]. intros [= <-].
  rewrite Z.add_0_r. apply Z_mod_mult.
Qed.

Lemma midnight_difference a b :
  a mod msPerDay = 0 -> (b - a) / msPerDay = Day b - Day a.
Proof. unfold Day, msPerDay. intros. Z.div_mod_to_equations. lia. Qed.

Lemma weekIndexAndRemaining_valid t ps pe mt ms me :
  mondayStartUTC (Some t) = Some mt ->
  mondayStartUTC (Some ps) = Some ms ->
  mondayStartUTC (Some pe) = Some me ->
  weekIndexAndRemaining (Some t) (Some ps) (Some pe) =
    {| idx := Some ((mt - ms) / msPerDay / 7 + 1);
       total := Some ((me - ms) / msPerDay / 7 + 1);
       remain := Some (Z.max 0 (((me - ms) / msPerDay / 7 + 1) -
                                ((mt - ms) / msPerDay / 7 + 1))) |}.
Proof.
  intros Ht Hs He. unfold weekIndexAndRemaining. rewrite Ht, Hs, He.
  reflexivity.
Qed.

Section Dates.
Context `{Host}.

(** ** C8 *)

(** C8. For a date and a period whose start is a UTC midnight (as every
    Date built by [Date.UTC] is), and whose week starts are Dates:
    [mondayStartUTC] gives the Monday of the week of each; the index is
    floor(daysBetween(first Monday, this Monday) / 7) + 1, the total
    floor(daysBetween(first Monday, last Monday) / 7) + 1, and the
    remainder max(0, total - index).  For the calendar year of
    2024-01-01 at 2024-01-01 the index is 1. *)
Theorem week_position_formula t ps pe mt ms me :
  ps mod msPerDay = 0 ->
  mondayStartUTC (Some t) = Some mt ->
  mondayStartUTC (Some ps) = Some ms ->
  mondayStartUTC (Some pe) = Some me ->
  let w := weekIndexAndRemaining (Some t) (Some ps) (Some pe) in
  let index := daysBetween ms mt / 7 + 1 in
  let total_ := daysBetween ms me / 7 + 1 in
  (mondayAnchor_of mt t /\ mondayAnchor_of ms ps /\ mondayAnchor_of me pe) /\
  idx w = Some index /\
  total w = Some total_ /\
  remain w = Some (Z.max 0 (total_ - index)) /\
  idx (weekIndexAndRemaining
         (ymdToUTCDate "2024-01-01")
         (yp_start (getYearPeriodFor (ymdToUTCDate "2024-01-01")))
         (yp_end (getYearPeriodFor (ymdToUTCDate "2024-01-01")))) = Some 1.
Proof.
  intros Hps Ht Hs He w index total_.
  assert (ms mod msPerDay = 0) as Hms.
  { rewrite (mondayStartUTC_valid _ _ Hs). unfold msPerDay in *.
    Z.div_mod_to_equations. lia. }
  split; [by auto using mondayStartUTC_anchor|].
  subst w index total_.
  rewrite (weekIndexAndRemaining_valid _ _ _ _ _ _ Ht Hs He).
  cbn [idx total remain]. rewrite !midnight_difference by done.
  split; [done|]. split; [done|]. split; [done|].
  vm_compute. reflexivity.
Qed.

End Dates.

(** The week position of Saturday 2024-01-06 in the calendar year 2024. *)
Lemma week_position_formula_witness :
  idx (weekIndexAndRemaining (Some 1704499200000) (Some 1704067200000)
         (Some 1735603200000)) =
    Some (daysBetween 1704067200000 1704067200000 / 7 + 1) /\
  mondayAnchor_of 1704067200000 1704499200000.
Proof.
  pose proof (week_position_formula 1704499200000 1704067200000 1735603200000
                1704067200000 1704067200000 1735516800000
                eq_refl eq_refl eq_refl eq_refl) as ((Hm & _) & Hi & _).
  split; [exact Hi | exact Hm].
Defined.

(** ** Date keys *)

Lemma is_digit_not_dash c : is_digit c = true -> Ascii.eqb c "-" = false.
Proof.
  intros Hd. destruct (Ascii.eqb_spec c "-") as [-> | _]; [|done].
  discriminate Hd.
Qed.

Lemma split_dash_digits s : all_digits s = true -> split_dash s = [s].
Proof.
  induction s as [|c s IH]; [done|]. simpl.
  intros [Hc Hs]%andb_true_iff.
  by rewrite (is_digit_not_dash c Hc), (IH Hs).
Qed.

Lemma split_dash_digits_app s rest :
  all_digits s = true ->
  split_dash (s +:+ "-" +:+ rest) = s :: split_dash rest.
Proof.
  induction s as [|c s IH]; [done|]. simpl.
  intros [Hc Hs]%andb_true_iff.
  by rewrite (is_digit_not_dash c Hc), (IH Hs).
Qed.

(** The pieces of a text made of three runs of digits. *)
Lemma split_dash_three sy sm sd :
  all_digits sy = true -> all_digits sm = true -> all_digits sd = true ->
  split_dash (sy +:+ "-" +:+ sm +:+ "-" +:+ sd) = [sy; sm; sd].
Proof.
  intros Hy Hm Hd.
  by rewrite !split_dash_digits_app, split_dash_digits.
Qed.

Lemma digits_value_nonneg s acc : 0 <= acc -> all_digits s = true ->
  0 <= digits_value acc s.
Proof.
  revert acc. induction s as [|c s IH]; intros acc Hacc; [done|]. simpl.
  intros [Hc Hs]%andb_true_iff. apply IH; [|done].
  unfold is_digit in Hc. apply andb_true_iff in Hc as [Hlo _].
  apply Nat.leb_le in Hlo. lia.
Qed.

Lemma fields_ok_upto (width : nat) (bound : Z) :
  forallb (field_ok width) (seqZ 0 bound) = true ->
  forall n, 0 <= n < bound ->
    all_digits (padStart width "0" (digits n)) = true /\
    digits_value 0 (padStart width "0" (digits n)) = n.
Proof.
  intros Hall n Hn.
  rewrite forallb_forall in Hall.
  specialize (Hall n). unfold field_ok in Hall.
  rewrite andb_true_iff, Z.eqb_eq in Hall. apply Hall.
  apply list_elem_of_In, elem_of_seqZ. lia.
Qed.

Lemma year_field n :
  0 <= n < 10000 ->
  all_digits (padStart 4 "0" (digits n)) = true /\
  digits_value 0 (padStart 4 "0" (digits n)) = n.
Proof. apply fields_ok_upto. vm_compute. reflexivity. Qed.

Lemma short_field n :
  0 <= n < 100 ->
  all_digits (padStart 2 "0" (digits n)) = true /\
  digits_value 0 (padStart 2 "0" (digits n)) = n.
Proof. apply fields_ok_upto. vm_compute. reflexivity. Qed.

(** A year of four digits needs no padding. *)
Lemma year_unpadded n :
  1000 <= n < 10000 -> padStart 4 "0" (digits n) = digits n.
Proof.
  intros Hn.
  assert (forallb (fun n => String.eqb (padStart 4 "0" (digits n)) (digits n))
                  (seqZ 1000 9000) = true) as Hall by (vm_compute; reflexivity).
  rewrite forallb_forall in Hall. apply String.eqb_eq, Hall.
  apply list_elem_of_In, elem_of_seqZ. lia.
Qed.

Lemma DaysInMonth_bounds l m : 28 <= DaysInMonth l m <= 31.
Proof.
  unfold DaysInMonth.
  destruct (m =? 1); [destruct l; lia|].
  destruct (_ || _); lia.
Qed.

Lemma MonthStart_bounds l m : 0 <= l <= 1 -> 0 <= MonthStart l m <= 335.
Proof.
  intros Hl. unfold MonthStart.
  repeat match goal with
         | |- context [if ?b then _ else _] => destruct b; try lia
         end.
Qed.

(** Four-digit years and two-digit months and days are far inside the
    range of time values. *)
Lemma Date_UTC_in_range yr m d :
  0 <= yr <= 9999 -> -1 <= m <= 99 -> 0 <= d <= 99 ->
  Date_UTC (Some yr) (Some m) (Some d) =
    Some (MakeDate (MakeDay (MakeFullYear yr) m d) 0).
Proof.
  intros Hy Hm Hd. unfold Date_UTC, TimeClip.
  destruct (Z.gtb_spec (Z.abs (MakeDate (MakeDay (MakeFullYear yr) m d) 0))
                       8640000000000000) as [Hbig|]; [|done].
  exfalso. revert Hbig.
  unfold MakeDate, MakeDay, msPerDay.
  set (fy := MakeFullYear yr).
  assert (0 <= fy <= 9999) as Hfy.
  { unfold fy, MakeFullYear. destruct (_ && _) eqn:E; [|lia].
    apply andb_true_iff in E as [?%Z.leb_le ?%Z.leb_le]. lia. }
  set (ym := fy + m / 12).
  assert (-1 <= ym <= 10008) as Hym by (unfold ym; Z.div_mod_to_equations; lia).
  pose proof (MonthStart_bounds (if isLeap ym then 1 else 0) (m mod 12)
                ltac:(destruct (isLeap ym); lia)) as Hms.
  pose proof (DayFromYear_le (-1) ym ltac:(lia)) as Hlo.
  pose proof (DayFromYear_le ym 10008 ltac:(lia)) as Hhi.
  change (DayFromYear (-1)) with (-719893) in Hlo.
  change (DayFromYear 10008) with 2935819 in Hhi.
  lia.
Qed.

Section Keys.
Context `{Host}.

Lemma Number_str_digits s :
  all_digits s = true -> Number_str s = Some (digits_value 0 s).
Proof. intros Hs. unfold Number_str. by rewrite Hs. Qed.

(** [ymdToUTCDate] on three runs of digits is [Date.UTC] on their
    values, with the month shifted. *)
Lemma ymdToUTCDate_digits sy sm sd :
  all_digits sy = true -> all_digits sm = true -> all_digits sd = true ->
  ymdToUTCDate (sy +:+ "-" +:+ sm +:+ "-" +:+ sd) =
    Date_UTC (Some (digits_value 0 sy)) (Some (digits_value 0 sm - 1))
             (Some (digits_value 0 sd)).
Proof.
  intros Hy Hm Hd. unfold ymdToUTCDate.
  rewrite split_dash_three by done.
  cbn [map item_num lookup list_lookup mjoin option_join].
  rewrite !Number_str_digits by done.
  cbn [num_sub].
  unfold new_Date.
  destruct (Date_UTC _ _ _) as [t|] eqn:E; [|done].
  unfold Date_UTC in E. unfold TimeClip in *.
  destruct (Z.abs _ >? _) eqn:E'; [done|].
  injection E as <-. by rewrite E'.
Qed.

(** ** C6 *)

(** C6, as amended.  [ymdToUTCDate] checks nothing and fails on
    nothing: on every text made of three runs of digits it returns
    [Date.UTC(y, m - 1, d)], a valid Date whenever the year has at most
    four digits and the month and day at most two, with months and days
    outside the calendar rolling over (month 13 of 2024 is January
    2025, February 30 is March 1); and [render] goes on to issue the
    lookup for every text that is not empty. *)
Theorem parse_does_not_validate sy sm sd :
  all_digits sy = true -> all_digits sm = true -> all_digits sd = true ->
  ymdToUTCDate (sy +:+ "-" +:+ sm +:+ "-" +:+ sd) =
    Date_UTC (Some (digits_value 0 sy)) (Some (digits_value 0 sm - 1))
             (Some (digits_value 0 sd)) /\
  (digits_value 0 sy <= 9999 -> digits_value 0 sm <= 99 ->
   digits_value 0 sd <= 99 ->
   is_Some (ymdToUTCDate (sy +:+ "-" +:+ sm +:+ "-" +:+ sd))) /\
  ymdToUTCDate "2024-13-01" = ymdToUTCDate "2025-01-01" /\
  ymdToUTCDate "2024-02-30" = ymdToUTCDate "2024-03-01" /\
  (forall dateStr today s, dateStr <> "" ->
     lastReqId (render dateStr today s) = lastReqId s + 1).
Proof.
  intros Hy Hm Hd.
  split; [by apply ymdToUTCDate_digits|].
  split.
  { intros By Bm Bd. rewrite ymdToUTCDate_digits by done.
    pose proof (digits_value_nonneg sy 0 ltac:(lia) Hy).
    pose proof (digits_value_nonneg sm 0 ltac:(lia) Hm).
    pose proof (digits_value_nonneg sd 0 ltac:(lia) Hd).
    rewrite Date_UTC_in_range by lia. by eexists. }
  split; [vm_compute; reflexivity|].
  split; [vm_compute; reflexivity|].
  intros dateStr today s Hne. by apply (render_issues CurrentScript).
Qed.

(** The round trip where it holds: years of four digits that do not
    start with zero. *)
Lemma key_round_trip_from_1000 yr m d :
  1000 <= yr <= 9999 -> valid_civil yr m d ->
  utcDateToYMD (ymdToUTCDate (canonical_key yr m d)) = canonical_key yr m d.
Proof.
  intros Hy [Hm Hd].
  pose proof (DaysInMonth_bounds (isLeap yr) (m - 1)) as Hdim.
  destruct (year_field yr ltac:(lia)) as [Hyd Hyv].
  destruct (short_field m ltac:(lia)) as [Hmd Hmv].
  destruct (short_field d ltac:(lia)) as [Hdd Hdv].
  unfold canonical_key.
  rewrite ymdToUTCDate_digits by done.
  rewrite Hyv, Hmv, Hdv.
  rewrite Date_UTC_in_range by lia.
  assert (MakeFullYear yr = yr) as ->.
  { unfold MakeFullYear. destruct (Z.leb_spec yr 99); [lia|].
    by rewrite andb_false_r. }
  destruct (civil_roundtrip yr (m - 1) d ltac:(lia) Hd) as (HY & HM & HD).
  unfold utcDateToYMD, getUTCFullYear, getUTCMonth, getUTCDate.
  cbn [fmap option_fmap option_map num_add].
  rewrite HY, HM, HD.
  unfold pad2, String_num, String_Z.
  replace (m - 1 + 1) with m by lia.
  destruct (Z.ltb_spec yr 0); [lia|].
  destruct (Z.ltb_spec m 0); [lia|].
  destruct (Z.ltb_spec d 0); [lia|].
  by rewrite year_unpadded by lia.
Qed.

End Keys.

(** Three runs of digits with month 13. *)
Lemma parse_does_not_validate_witness :
  ymdToUTCDate "2024-13-01" = Some 1735689600000.
Proof.
  exact (proj1 (parse_does_not_validate "2024" "13" "01" eq_refl eq_refl eq_refl)).
Defined.

Lemma canonical_key_parts yr m d :
  0 <= yr <= 9999 -> valid_civil yr m d ->
  split_dash (canonical_key yr m d) =
    [padStart 4 "0" (digits yr); padStart 2 "0" (digits m);
     padStart 2 "0" (digits d)].
Proof.
  intros Hy [Hm Hd].
  pose proof (DaysInMonth_bounds (isLeap yr) (m - 1)) as Hdim.
  destruct (year_field yr ltac:(lia)) as [Hyd _].
  destruct (short_field m ltac:(lia)) as [Hmd _].
  destruct (short_field d ltac:(lia)) as [Hdd _].
  by apply split_dash_three.
Qed.

(** C6 as written fails: month 13 is not rejected.  The text "2024-13-01"
    is no valid date key, and [ymdToUTCDate] returns the valid Date of
    2025-01-01 for it. *)
Lemma month_13_is_accepted :
  ymdToUTCDate "2024-13-01" = Some 1735689600000 /\
  utcDateToYMD (ymdToUTCDate "2024-13-01") = "2025-01-01" /\
  ~ valid_key "2024-13-01" /\
  ~ (forall text, is_Some (ymdToUTCDate text) -> valid_key text).
Proof.
  assert (~ valid_key "2024-13-01") as Hinvalid.
  { intros (yr & m & d & Hy & Hv & Hk).
    apply (f_equal split_dash) in Hk.
    rewrite canonical_key_parts in Hk by done.
    injection Hk as _ Hm _.
    destruct (short_field m) as [_ Hval]; [destruct Hv; lia|].
    rewrite <- Hm in Hval. vm_compute in Hval. destruct Hv. lia. }
  split; [reflexivity|]. split; [reflexivity|]. split; [done|].
  intros Hall. apply Hinvalid, Hall. by eexists.
Qed.

(** C7 fails on years before 1000.  [Date.UTC] reads the year 50 as 1950,
    so "0050-01-01" comes back as "1950-01-01"; and [utcDateToYMD] does
    not pad the year, so "0999-12-31" comes back as "999-12-31". *)
Theorem key_round_trip_fails_before_1000 :
  valid_key "0050-01-01" /\
  ymdToUTCDate "0050-01-01" = ymdToUTCDate "1950-01-01" /\
  utcDateToYMD (ymdToUTCDate "0050-01-01") = "1950-01-01" /\
  valid_key "0999-12-31" /\
  utcDateToYMD (ymdToUTCDate "0999-12-31") = "999-12-31".
Proof.
  split; [|split; [reflexivity|split; [reflexivity|split; [|reflexivity]]]].
  - exists 50, 1, 1. split; [lia|]. split; [|reflexivity].
    split; [lia|]. vm_compute. split; discriminate.
  - exists 999, 12, 31. split; [lia|]. split; [|reflexivity].
    split; [lia|]. vm_compute. split; discriminate.
Qed.

(** * Further properties *)

(** ** Weeks *)

(** The week start in closed form, on day numbers. *)
Lemma mondayStartUTC_day t m :
  mondayStartUTC (Some t) = Some m ->
  m = t - (Day t - (7 * ((Day t + 3) / 7) - 3)) * msPerDay /\
  -8640000000000000 <= m <= 8640000000000000.
Proof.
  intros Hm. pose proof (mondayStartUTC_valid _ _ Hm) as ->.
  split.
  - unfold WeekDay. f_equal. f_equal. Z.div_mod_to_equations. lia.
  - revert Hm. unfold mondayStartUTC, getUTCDay, getTime, new_Date. simpl.
    rewrite Z.rem_mod_nonneg;
      [| unfold WeekDay; Z.div_mod_to_equations; lia | lia].
    unfold TimeClip.
    destruct (Z.gtb_spec (Z.abs (t - (WeekDay t + 6) mod 7 * MS_PER_DAY))
                8640000000000000) as [|Hle]; [done|].
    intros _. change MS_PER_DAY with msPerDay in Hle. lia.
Qed.

Lemma mondayStartUTC_of_valid t :
  -8640000000000000 <= t - ((WeekDay t + 6) mod 7) * msPerDay ->
  t <= 8640000000000000 ->
  mondayStartUTC (Some t) = Some (t - ((WeekDay t + 6) mod 7) * msPerDay).
Proof.
  intros Hlo Hhi.
  unfold mondayStartUTC, getUTCDay, getTime, new_Date. simpl.
  rewrite Z.rem_mod_nonneg;
    [| unfold WeekDay; Z.div_mod_to_equations; lia | lia].
  change MS_PER_DAY with msPerDay.
  unfold TimeClip.
  destruct (Z.gtb_spec (Z.abs (t - (WeekDay t + 6) mod 7 * msPerDay))
              8640000000000000) as [Hbig|]; [|done].
  exfalso. assert (0 <= (WeekDay t + 6) mod 7 * msPerDay).
  { unfold msPerDay. Z.div_mod_to_equations. lia. }
  lia.
Qed.

Lemma WeekDay_mondayStartUTC t m :
  mondayStartUTC (Some t) = Some m -> WeekDay m = 1.
Proof. intros Hm. by destruct (mondayStartUTC_anchor _ _ Hm). Qed.

(** X1.
    The Monday that [mondayStartUTC] returns is its own week start, and
    the week start of each of the seven days from it to the Sunday that
    follows (as far as they are Dates). *)
Theorem week_start_is_shared t m :
  mondayStartUTC (Some t) = Some m ->
  mondayStartUTC (Some m) = Some m /\
  forall k, 0 <= k <= 6 -> m + k * msPerDay <= 8640000000000000 ->
    mondayStartUTC (Some (m + k * msPerDay)) = Some m.
Proof.
  intros Hm.
  pose proof (WeekDay_mondayStartUTC _ _ Hm) as Hw.
  destruct (mondayStartUTC_day _ _ Hm) as [_ Hr].
  assert (forall k, 0 <= k <= 6 -> m + k * msPerDay <= 8640000000000000 ->
            mondayStartUTC (Some (m + k * msPerDay)) = Some m) as Hk.
  { intros k Hk Hhi.
    assert ((WeekDay (m + k * msPerDay) + 6) mod 7 = k) as Hd.
    { revert Hw. unfold WeekDay, Day, msPerDay. intros Hw.
      Z.div_mod_to_equations. lia. }
    rewrite mondayStartUTC_of_valid; rewrite ?Hd; [f_equal; lia | lia | lia]. }
  split; [|done].
  specialize (Hk 0 ltac:(lia) ltac:(lia)).
  by rewrite Z.mul_0_l, Z.add_0_r in Hk.
Qed.

Lemma week_start_is_shared_witness :
  mondayStartUTC (Some 1704067200000) = Some 1704067200000 /\
  mondayStartUTC (Some (1704067200000 + 6 * msPerDay)) = Some 1704067200000.
Proof.
  destruct (week_start_is_shared 1704499200000 1704067200000 eq_refl)
    as [Hself Hweek].
  split; [exact Hself|].
  apply Hweek; unfold msPerDay; lia.
Defined.

(** The week index in closed form on day numbers, for UTC midnights. *)
Lemma weekIndexAndRemaining_days a b c :
  is_Some (mondayStartUTC (Some (b * msPerDay))) ->
  b <= a -> b <= c -> a * msPerDay <= 8640000000000000 ->
  c * msPerDay <= 8640000000000000 ->
  weekIndexAndRemaining (Some (a * msPerDay)) (Some (b * msPerDay))
                        (Some (c * msPerDay)) =
    {| idx := Some ((a + 3) / 7 - (b + 3) / 7 + 1);
       total := Some ((c + 3) / 7 - (b + 3) / 7 + 1);
       remain := Some (Z.max 0 ((c + 3) / 7 - (a + 3) / 7)) |}.
Proof.
  intros [mb Hb] Hab Hbc Ha Hc.
  destruct (mondayStartUTC_day _ _ Hb) as [Eb Rb].
  assert (forall x, Day (x * msPerDay) = x) as HDay.
  { intros x. unfold Day. apply Z_div_mult. unfold msPerDay. lia. }
  rewrite HDay in Eb.
  assert (forall x, b <= x -> x * msPerDay <= 8640000000000000 ->
            mondayStartUTC (Some (x * msPerDay)) =
              Some ((7 * ((x + 3) / 7) - 3) * msPerDay)) as Hmon.
  { intros x Hx Hhi.
    assert ((WeekDay (x * msPerDay) + 6) mod 7 = x - (7 * ((x + 3) / 7) - 3))
      as Hd.
    { unfold WeekDay. rewrite HDay. Z.div_mod_to_equations. lia. }
    rewrite mondayStartUTC_of_valid; rewrite ?Hd.
    - f_equal. lia.
    - assert ((7 * ((b + 3) / 7) - 3) <= (7 * ((x + 3) / 7) - 3))
        by (Z.div_mod_to_equations; lia).
      unfold msPerDay in *. lia.
    - done. }
  assert (b * msPerDay <= 8640000000000000) as Hb'
    by (unfold msPerDay in *; lia).
  rewrite (weekIndexAndRemaining_valid _ _ _ _ _ _
             (Hmon a Hab Ha) (Hmon b ltac:(lia) Hb') (Hmon c Hbc Hc)).
  assert (forall x, ((7 * ((x + 3) / 7) - 3) * msPerDay
                     - (7 * ((b + 3) / 7) - 3) * msPerDay) / msPerDay / 7 + 1
                    = (x + 3) / 7 - (b + 3) / 7 + 1) as Hq.
  { intros x.
    replace ((7 * ((x + 3) / 7) - 3) * msPerDay - (7 * ((b + 3) / 7) - 3) * msPerDay)
      with ((7 * ((x + 3) / 7 - (b + 3) / 7)) * msPerDay) by lia.
    rewrite Z_div_mult by (unfold msPerDay; lia).
    rewrite Z.mul_comm, Z_div_mult by lia. done. }
  rewrite !Hq. f_equal. f_equal. lia.
Qed.

(** X2.
    For a date inside a period (all three UTC midnights, the week start
    of the period a Date), the week index lies between 1 and the number
    of weeks, and the remaining weeks are their difference: the
    [Math.max(0, ...)] never clips. *)
Theorem week_index_within_period t ps pe :
  t mod msPerDay = 0 -> ps mod msPerDay = 0 -> pe mod msPerDay = 0 ->
  ps <= t <= pe -> pe <= 8640000000000000 ->
  is_Some (mondayStartUTC (Some ps)) ->
  exists i n,
    weekIndexAndRemaining (Some t) (Some ps) (Some pe) =
      {| idx := Some i; total := Some n; remain := Some (n - i) |} /\
    1 <= i <= n.
Proof.
  intros Ht Hps Hpe Hin Hhi Hmon.
  assert (forall x, x mod msPerDay = 0 -> x = Day x * msPerDay) as Hmid.
  { intros x Hx. unfold Day, msPerDay in *. Z.div_mod_to_equations. lia. }
  rewrite (Hmid t Ht), (Hmid ps Hps), (Hmid pe Hpe) in *.
  assert (Day ps <= Day t <= Day pe) as Hdays by (unfold msPerDay in *; lia).
  rewrite weekIndexAndRemaining_days by (done || lia).
  eexists _, _. split.
  - f_equal. f_equal.
    assert ((Day t + 3) / 7 <= (Day pe + 3) / 7)
      by (Z.div_mod_to_equations; lia).
    lia.
  - Z.div_mod_to_equations. lia.
Qed.

Lemma week_index_within_period_witness :
  exists i n,
    weekIndexAndRemaining (Some 1704499200000) (Some 1704067200000)
                          (Some 1735603200000) =
      {| idx := Some i; total := Some n; remain := Some (n - i) |} /\
    1 <= i <= n.
Proof.
  apply week_index_within_period;
    [reflexivity | reflexivity | reflexivity | lia | lia | by eexists].
Defined.

(** ** Periods *)

Lemma Day_midnight x : Day (x * msPerDay) = x.
Proof. unfold Day. apply Z_div_mult. unfold msPerDay. lia. Qed.

Lemma midnight_is_day_multiple x : x mod msPerDay = 0 -> x = Day x * msPerDay.
Proof. intros Hx. unfold Day, msPerDay in *. Z.div_mod_to_equations. lia. Qed.

(** [Date.UTC] on a year from 100 to 270000 and a month and day of the
    calendar. *)
Lemma Date_UTC_civil yr m d :
  100 <= yr <= 270000 -> 0 <= m <= 11 -> 1 <= d <= 31 ->
  Date_UTC (Some yr) (Some m) (Some d) =
    Some ((DayFromYear yr + MonthStart (if isLeap yr then 1 else 0) m + d - 1)
          * msPerDay).
Proof.
  intros Hy Hm Hd. unfold Date_UTC, MakeFullYear.
  destruct (Z.leb_spec yr 99); [lia|]. rewrite andb_false_r.
  unfold MakeDay, MakeDate.
  assert (m / 12 = 0) as -> by (Z.div_mod_to_equations; lia).
  assert (m mod 12 = m) as -> by (Z.div_mod_to_equations; lia).
  rewrite !Z.add_0_r.
  pose proof (MonthStart_bounds (if isLeap yr then 1 else 0) m
                ltac:(destruct (isLeap yr); lia)) as Hms.
  pose proof (DayFromYear_le 100 yr ltac:(lia)) as Hlo.
  pose proof (DayFromYear_le yr 270000 ltac:(lia)) as Hhi.
  change (DayFromYear 100) with (-683003) in Hlo.
  change (DayFromYear 270000) with 97895947 in Hhi.
  unfold TimeClip.
  destruct (Z.gtb_spec (Z.abs ((DayFromYear yr + MonthStart (if isLeap yr then 1 else 0) m + d - 1) * msPerDay)) 8640000000000000) as [Hbig|]; [|done].
  unfold msPerDay in Hbig. lia.
Qed.

Lemma Date_UTC_first_of_year yr :
  100 <= yr <= 270000 ->
  Date_UTC (Some yr) (Some 0) (Some 1) = Some (DayFromYear yr * msPerDay).
Proof.
  intros Hy. rewrite Date_UTC_civil by lia. f_equal. f_equal.
  unfold MonthStart. simpl. lia.
Qed.

Lemma Date_UTC_last_of_year yr :
  100 <= yr <= 270000 ->
  Date_UTC (Some yr) (Some 11) (Some 31) =
    Some ((DayFromYear (yr + 1) - 1) * msPerDay).
Proof.
  intros Hy. rewrite Date_UTC_civil by lia. f_equal. f_equal.
  rewrite DayFromYear_succ. unfold MonthStart, DaysInYear. simpl.
  destruct (isLeap yr); lia.
Qed.

Lemma new_Date_Some t : new_Date (TimeClip t) = TimeClip t.
Proof. unfold new_Date, TimeClip. destruct (_ >? _) eqn:E; [done|]. simpl. by rewrite E. Qed.

Lemma new_Date_Date_UTC yr m d :
  new_Date (Date_UTC yr m d) = Date_UTC yr m d.
Proof.
  unfold Date_UTC. destruct yr, m, d; try done. apply new_Date_Some.
Qed.

Lemma mondayStartUTC_from_100 b :
  DayFromYear 100 <= b -> b * msPerDay <= 8640000000000000 ->
  is_Some (mondayStartUTC (Some (b * msPerDay))).
Proof.
  intros Hb Hhi. rewrite mondayStartUTC_of_valid; [by eexists | | done].
  change (DayFromYear 100) with (-683003) in Hb.
  assert (0 <= (WeekDay (b * msPerDay) + 6) mod 7 <= 6)
    by (Z.div_mod_to_equations; lia).
  unfold msPerDay in *. lia.
Qed.

(** The number of Monday-start weeks that a period of 365 or 366 days
    touches. *)
Lemma weeks_of_a_year b c :
  c - b = 364 \/ c - b = 365 ->
  (c + 3) / 7 - (b + 3) / 7 + 1 = 53 \/ (c + 3) / 7 - (b + 3) / 7 + 1 = 54.
Proof. intros Hlen. Z.div_mod_to_equations. lia. Qed.

Lemma getYearPeriodFor_weeks t :
  t mod msPerDay = 0 -> 100 <= YearFromTime t <= 270000 ->
  exists s e i n,
    getYearPeriodFor (Some t) =
      {| yp_y := Some (YearFromTime t); yp_start := Some s; yp_end := Some e |} /\
    s = TimeFromYear (YearFromTime t) /\
    e = TimeFromYear (YearFromTime t + 1) - msPerDay /\
    s <= t <= e /\
    weekIndexAndRemaining (Some t) (Some s) (Some e) =
      {| idx := Some i; total := Some n; remain := Some (n - i) |} /\
    1 <= i <= n /\ (n = 53 \/ n = 54).
Proof.
  intros Ht Hy. set (yr := YearFromTime t) in *.
  pose proof (YearFromTime_bounds t) as [Hlo Hhi]. fold yr in Hlo, Hhi.
  pose proof (midnight_is_day_multiple t Ht) as Et.
  pose proof (DayFromYear_le 100 yr ltac:(lia)) as H100.
  pose proof (DayFromYear_le (yr + 1) 270001 ltac:(lia)) as Hmax.
  change (DayFromYear 270001) with 97896313 in Hmax.
  exists (DayFromYear yr * msPerDay), ((DayFromYear (yr + 1) - 1) * msPerDay).
  eexists _, _.
  split; [|split; [|split; [|split; [|split]]]].
  - unfold getYearPeriodFor, getUTCFullYear.
    change (YearFromTime <$> Some t) with (Some yr).
    by rewrite !new_Date_Date_UTC, Date_UTC_first_of_year,
      Date_UTC_last_of_year by lia.
  - unfold TimeFromYear. lia.
  - unfold TimeFromYear. lia.
  - rewrite Et. unfold msPerDay. lia.
  - rewrite Et at 1.
    rewrite weekIndexAndRemaining_days;
      [| apply mondayStartUTC_from_100; [done | unfold msPerDay; lia]
       | lia | lia | unfold msPerDay; lia | unfold msPerDay; lia].
    f_equal. f_equal.
    assert ((Day t + 3) / 7 <= (DayFromYear (yr + 1) - 1 + 3) / 7)
      by (Z.div_mod_to_equations; lia).
    lia.
  - split.
    + split; [Z.div_mod_to_equations; lia|].
      Z.div_mod_to_equations. lia.
    + apply weeks_of_a_year. rewrite DayFromYear_succ. unfold DaysInYear.
      destruct (isLeap yr); lia.
Qed.

(** X3.
    For a Date in the years 100 to 270000 at UTC midnight,
    [getYearPeriodFor] returns January 1 and December 31 of the year of
    the date, the date lies between them, and in that period the week
    index of the date lies between 1 and the number of weeks, which is
    53 or 54. *)
Theorem calendar_year_period_contains_date t :
  t mod msPerDay = 0 -> 100 <= YearFromTime t <= 270000 ->
  exists s e i n,
    getYearPeriodFor (Some t) =
      {| yp_y := Some (YearFromTime t); yp_start := Some s; yp_end := Some e |} /\
    s = TimeFromYear (YearFromTime t) /\
    e = TimeFromYear (YearFromTime t + 1) - msPerDay /\
    s <= t <= e /\
    weekIndexAndRemaining (Some t) (Some s) (Some e) =
      {| idx := Some i; total := Some n; remain := Some (n - i) |} /\
    1 <= i <= n /\ (n = 53 \/ n = 54).
Proof. apply getYearPeriodFor_weeks. Qed.

Lemma calendar_year_period_contains_date_witness :
  exists s e i n,
    getYearPeriodFor (Some 1704499200000) =
      {| yp_y := Some (YearFromTime 1704499200000);
         yp_start := Some s; yp_end := Some e |} /\
    s = TimeFromYear (YearFromTime 1704499200000) /\
    e = TimeFromYear (YearFromTime 1704499200000 + 1) - msPerDay /\
    s <= 1704499200000 <= e /\
    weekIndexAndRemaining (Some 1704499200000) (Some s) (Some e) =
      {| idx := Some i; total := Some n; remain := Some (n - i) |} /\
    1 <= i <= n /\ (n = 53 \/ n = 54).
Proof.
  apply calendar_year_period_contains_date; [reflexivity | vm_compute; split; discriminate].
Defined.

Lemma Date_UTC_april_1 yr :
  100 <= yr <= 270000 ->
  Date_UTC (Some yr) (Some 3) (Some 1) =
    Some ((DayFromYear yr + 90 + (if isLeap yr then 1 else 0)) * msPerDay).
Proof.
  intros Hy. rewrite Date_UTC_civil by lia. f_equal. f_equal.
  unfold MonthStart. simpl. lia.
Qed.

Lemma Date_UTC_march_31 yr :
  100 <= yr <= 270000 ->
  Date_UTC (Some yr) (Some 2) (Some 31) =
    Some ((DayFromYear yr + 89 + (if isLeap yr then 1 else 0)) * msPerDay).
Proof.
  intros Hy. rewrite Date_UTC_civil by lia. f_equal. f_equal.
  unfold MonthStart. simpl. lia.
Qed.

Lemma civil_fields yr m d x :
  0 <= m <= 11 -> 1 <= d <= DaysInMonth (isLeap yr) m ->
  x = DayFromYear yr + MonthStart (if isLeap yr then 1 else 0) m + d - 1 ->
  YearFromTime (x * msPerDay) = yr /\ MonthFromTime (x * msPerDay) = m /\
  DateFromTime (x * msPerDay) = d.
Proof.
  intros Hm Hd ->.
  pose proof (civil_roundtrip yr m d Hm Hd) as Hc.
  unfold MakeDate, MakeDay in Hc.
  assert (m / 12 = 0) as Hq by (Z.div_mod_to_equations; lia).
  assert (m mod 12 = m) as Hr by (Z.div_mod_to_equations; lia).
  by rewrite Hq, Hr, !Z.add_0_r in Hc.
Qed.

Lemma civil_fields_of_april_1 yr :
  let t := (DayFromYear yr + 90 + (if isLeap yr then 1 else 0)) * msPerDay in
  YearFromTime t = yr /\ MonthFromTime t = 3 /\ DateFromTime t = 1.
Proof.
  apply (civil_fields yr 3 1); [lia | by vm_compute |].
  unfold MonthStart. simpl. lia.
Qed.

Lemma civil_fields_of_march_31 yr :
  let t := (DayFromYear yr + 89 + (if isLeap yr then 1 else 0)) * msPerDay in
  YearFromTime t = yr /\ MonthFromTime t = 2 /\ DateFromTime t = 31.
Proof.
  apply (civil_fields yr 2 31); [lia | by vm_compute |].
  unfold MonthStart. simpl. lia.
Qed.

(** January to March are the days of the year before day 90 (91 in a
    leap year). *)
Lemma MonthFromTime_before_april t :
  (MonthFromTime t <? 3) = (DayWithinYear t <? 90 + InLeapYear t).
Proof.
  unfold MonthFromTime. generalize (DayWithinYear t) as d.
  unfold InLeapYear. destruct (isLeap (YearFromTime t)); intros d;
    match goal with
    | |- _ = (?a <? ?b) => destruct (Z.ltb_spec a b)
    end;
    repeat match goal with
           | |- context [if ?a <? ?b then _ else _] =>
               destruct (Z.ltb_spec a b); try lia
           end;
    reflexivity.
Qed.

Lemma getFiscalPeriodFor_weeks t :
  t mod msPerDay = 0 -> 101 <= YearFromTime t <= 269999 ->
  exists s e i n,
    getFiscalPeriodFor (Some t) = {| fyStart := Some s; fyEnd := Some e |} /\
    (MonthFromTime s = 3 /\ DateFromTime s = 1) /\
    (MonthFromTime e = 2 /\ DateFromTime e = 31) /\
    YearFromTime s =
      (if MonthFromTime t <? 3 then YearFromTime t - 1 else YearFromTime t) /\
    YearFromTime e = YearFromTime s + 1 /\
    s <= t <= e /\
    weekIndexAndRemaining (Some t) (Some s) (Some e) =
      {| idx := Some i; total := Some n; remain := Some (n - i) |} /\
    1 <= i <= n /\ (n = 53 \/ n = 54).
Proof.
  intros Ht Hy. set (yr := YearFromTime t) in *.
  pose proof (YearFromTime_bounds t) as [Hlo Hhi]. fold yr in Hlo, Hhi.
  pose proof (midnight_is_day_multiple t Ht) as Et.
  (* the fiscal year [fy] and the two ends of its period, as day numbers *)
  set (after := DayFromYear yr + 90 + (if isLeap yr then 1 else 0) <=? Day t).
  set (fy := if after then yr else yr - 1).
  set (b := DayFromYear fy + 90 + (if isLeap fy then 1 else 0)).
  set (c := DayFromYear (fy + 1) + 89 + (if isLeap (fy + 1) then 1 else 0)).
  assert (100 <= fy /\ fy + 1 <= 270000) as Hfy by (unfold fy; destruct after; lia).
  assert (getFiscalPeriodFor (Some t) =
          {| fyStart := Some (b * msPerDay); fyEnd := Some (c * msPerDay) |}) as Hper.
  { unfold getFiscalPeriodFor, getUTCFullYear.
    change (YearFromTime <$> Some t) with (Some yr).
    rewrite !new_Date_Date_UTC. cbn [num_sub].
    rewrite (Date_UTC_april_1 yr) by lia.
    rewrite (Date_UTC_april_1 (yr - 1)) by lia.
    unfold num_ge.
    assert ((t >=? (DayFromYear yr + 90 + (if isLeap yr then 1 else 0)) * msPerDay)
            = after) as ->.
    { unfold after. rewrite Z.geb_leb. rewrite Et at 1.
      destruct (Z.leb_spec (DayFromYear yr + 90 + (if isLeap yr then 1 else 0)) (Day t));
        [apply Z.leb_le | apply Z.leb_gt]; unfold msPerDay; lia. }
    unfold b, c, fy. destruct after.
    - change (YearFromTime <$> Some ?x) with (Some (YearFromTime x)).
      destruct (civil_fields_of_april_1 yr) as [-> _]. cbn [num_add].
      by rewrite Date_UTC_march_31 by lia.
    - change (YearFromTime <$> Some ?x) with (Some (YearFromTime x)).
      destruct (civil_fields_of_april_1 (yr - 1)) as [-> _]. cbn [num_add].
      by rewrite Date_UTC_march_31 by lia. }
  assert (c - b = 364 \/ c - b = 365) as Hlen.
  { unfold b, c. rewrite DayFromYear_succ. unfold DaysInYear.
    destruct (isLeap fy), (isLeap (fy + 1)); lia. }
  assert (b <= Day t <= c) as Hin.
  { unfold b, c, fy. subst after.
    destruct (Z.leb_spec (DayFromYear yr + 90 + (if isLeap yr then 1 else 0)) (Day t)).
    - rewrite DayFromYear_succ in Hhi |- *. unfold DaysInYear in *.
      destruct (isLeap yr), (isLeap (yr + 1)); lia.
    - replace (yr - 1 + 1) with yr by lia.
      pose proof (DayFromYear_succ (yr - 1)) as Hs.
      replace (yr - 1 + 1) with yr in Hs by lia. unfold DaysInYear in Hs.
      destruct (isLeap yr), (isLeap (yr - 1)); lia. }
  pose proof (DayFromYear_le 100 fy ltac:(lia)) as H100.
  pose proof (DayFromYear_le (fy + 1) 270000 ltac:(lia)) as Hmax.
  change (DayFromYear 270000) with 97895947 in Hmax.
  assert (c * msPerDay <= 8640000000000000) as Hc.
  { unfold c, msPerDay. destruct (isLeap (fy + 1)); lia. }
  exists (b * msPerDay), (c * msPerDay). eexists _, _.
  split; [exact Hper|].
  destruct (civil_fields_of_april_1 fy) as (HsY & HsM & HsD).
  destruct (civil_fields_of_march_31 (fy + 1)) as (HeY & HeM & HeD).
  fold b in HsY, HsM, HsD. fold c in HeY, HeM, HeD.
  split; [done|]. split; [done|].
  split.
  { rewrite HsY, MonthFromTime_before_april. unfold fy, after.
    unfold DayWithinYear, InLeapYear. fold yr.
    destruct (Z.leb_spec (DayFromYear yr + 90 + (if isLeap yr then 1 else 0)) (Day t));
      destruct (isLeap yr); ltb_chain; done. }
  split; [by rewrite HeY, HsY|].
  split; [rewrite Et; unfold msPerDay; lia|].
  split.
  - rewrite Et at 1.
    rewrite weekIndexAndRemaining_days;
      [| apply mondayStartUTC_from_100;
           [unfold b; destruct (isLeap fy); lia | unfold msPerDay in *; lia]
       | lia | lia | unfold msPerDay in *; lia | done].
    f_equal. f_equal.
    assert ((Day t + 3) / 7 <= (c + 3) / 7) by (Z.div_mod_to_equations; lia).
    lia.
  - split.
    + split; [Z.div_mod_to_equations; lia|].
      Z.div_mod_to_equations. lia.
    + by apply weeks_of_a_year.
Qed.

(** X4.
    For a Date in the years 101 to 269999 at UTC midnight,
    [getFiscalPeriodFor] returns an April 1 and the March 31 of the year
    after it, the date lies between them, the fiscal year starts in the
    year of the date from April on and in the year before until March,
    and in that period the week index of the date lies between 1 and the
    number of weeks, which is 53 or 54. *)
Theorem fiscal_period_contains_date t :
  t mod msPerDay = 0 -> 101 <= YearFromTime t <= 269999 ->
  exists s e i n,
    getFiscalPeriodFor (Some t) = {| fyStart := Some s; fyEnd := Some e |} /\
    (MonthFromTime s = 3 /\ DateFromTime s = 1) /\
    (MonthFromTime e = 2 /\ DateFromTime e = 31) /\
    YearFromTime s =
      (if MonthFromTime t <? 3 then YearFromTime t - 1 else YearFromTime t) /\
    YearFromTime e = YearFromTime s + 1 /\
    s <= t <= e /\
    weekIndexAndRemaining (Some t) (Some s) (Some e) =
      {| idx := Some i; total := Some n; remain := Some (n - i) |} /\
    1 <= i <= n /\ (n = 53 \/ n = 54).
Proof. apply getFiscalPeriodFor_weeks. Qed.

Lemma fiscal_period_contains_date_witness :
  exists s e i n,
    getFiscalPeriodFor (Some 1704499200000) =
      {| fyStart := Some s; fyEnd := Some e |} /\
    (MonthFromTime s = 3 /\ DateFromTime s = 1) /\
    (MonthFromTime e = 2 /\ DateFromTime e = 31) /\
    YearFromTime s =
      (if MonthFromTime 1704499200000 <? 3
       then YearFromTime 1704499200000 - 1 else YearFromTime 1704499200000) /\
    YearFromTime e = YearFromTime s + 1 /\
    s <= 1704499200000 <= e /\
    weekIndexAndRemaining (Some 1704499200000) (Some s) (Some e) =
      {| idx := Some i; total := Some n; remain := Some (n - i) |} /\
    1 <= i <= n /\ (n = 53 \/ n = 54).
Proof.
  apply fiscal_period_contains_date;
    [reflexivity | vm_compute; split; discriminate].
Defined.

(** ** Date keys and Dates *)

(** The civil fields of a time value are a date of the calendar, and
    [MakeDay] on them gives back the day number. *)
Lemma civil_fields_valid t :
  0 <= MonthFromTime t <= 11 /\
  1 <= DateFromTime t <= DaysInMonth (isLeap (YearFromTime t)) (MonthFromTime t) /\
  MakeDay (YearFromTime t) (MonthFromTime t) (DateFromTime t) = Day t.
Proof.
  pose proof (YearFromTime_bounds t) as [Hlo Hhi].
  rewrite DayFromYear_succ in Hhi.
  assert (0 <= DayWithinYear t < DaysInYear (YearFromTime t)) as Hd
    by (unfold DayWithinYear; lia).
  assert (0 <= MonthFromTime t <= 11) as Hm.
  { unfold MonthFromTime. ltb_chain. }
  split; [done|].
  assert (MonthFromTime t / 12 = 0) as Hq by (Z.div_mod_to_equations; lia).
  assert (MonthFromTime t mod 12 = MonthFromTime t) as Hr
    by (Z.div_mod_to_equations; lia).
  split.
  - unfold DateFromTime, MonthFromTime, InLeapYear, DaysInYear in *.
    generalize dependent (DayWithinYear t). intros d Hd _ _ _.
    destruct (isLeap (YearFromTime t)); ltb_chain; cbn; lia.
  - unfold MakeDay. rewrite Hq, Hr, Z.add_0_r.
    unfold DateFromTime, InLeapYear, DayWithinYear. lia.
Qed.

(** [utcDateToYMD] on a Date of a year of four digits is the canonical key
    of its civil fields. *)
Lemma utcDateToYMD_canonical t :
  1000 <= YearFromTime t <= 9999 ->
  utcDateToYMD (Some t) =
    canonical_key (YearFromTime t) (MonthFromTime t + 1) (DateFromTime t).
Proof.
  intros Hy. destruct (civil_fields_valid t) as (Hm & Hd & _).
  unfold utcDateToYMD, getUTCFullYear, getUTCMonth, getUTCDate, canonical_key.
  change (?f <$> Some t) with (Some (f t)). cbn [num_add].
  unfold pad2, String_num, String_Z.
  destruct (Z.ltb_spec (YearFromTime t) 0); [lia|].
  destruct (Z.ltb_spec (MonthFromTime t + 1) 0); [lia|].
  destruct (Z.ltb_spec (DateFromTime t) 0); [lia|].
  by rewrite year_unpadded by lia.
Qed.

Section KeysAndDates.
Context `{Host}.

(** A valid date key (years 1000 to 9999) is read as the UTC midnight of
    its day. *)
Lemma ymdToUTCDate_canonical yr m d :
  1000 <= yr <= 9999 -> valid_civil yr m d ->
  ymdToUTCDate (canonical_key yr m d) = Some (MakeDay yr (m - 1) d * msPerDay).
Proof.
  intros Hy [Hm Hd].
  pose proof (DaysInMonth_bounds (isLeap yr) (m - 1)) as Hdim.
  destruct (year_field yr ltac:(lia)) as [Hyd Hyv].
  destruct (short_field m ltac:(lia)) as [Hmd Hmv].
  destruct (short_field d ltac:(lia)) as [Hdd Hdv].
  unfold canonical_key. rewrite ymdToUTCDate_digits by done.
  rewrite Hyv, Hmv, Hdv, Date_UTC_in_range by lia.
  assert (MakeFullYear yr = yr) as ->.
  { unfold MakeFullYear. destruct (Z.leb_spec yr 99); [lia|].
    by rewrite andb_false_r. }
  unfold MakeDate. f_equal. lia.
Qed.

(** X5.
    A valid date key with a year from 1000 to 9999 is read as the UTC
    midnight whose civil fields are the year, month and day that the key
    names, and [utcDateToYMD] writes that Date as the same key. *)
Theorem valid_key_is_read_back yr m d :
  1000 <= yr <= 9999 -> valid_civil yr m d ->
  exists t,
    ymdToUTCDate (canonical_key yr m d) = Some t /\
    t mod msPerDay = 0 /\
    YearFromTime t = yr /\ MonthFromTime t = m - 1 /\ DateFromTime t = d /\
    utcDateToYMD (Some t) = canonical_key yr m d.
Proof.
  intros Hy Hv. exists (MakeDay yr (m - 1) d * msPerDay).
  pose proof (ymdToUTCDate_canonical yr m d Hy Hv) as Hparse.
  split; [done|]. split; [apply Z_mod_mult|].
  destruct Hv as [Hm Hd].
  pose proof (civil_roundtrip yr (m - 1) d ltac:(lia) Hd) as Hc.
  unfold MakeDate in Hc. rewrite Z.add_0_r in Hc.
  destruct Hc as (HY & HM & HD). split; [done|]. split; [done|]. split; [done|].
  rewrite <- Hparse. by apply key_round_trip_from_1000.
Qed.

(** X6.
    The other round trip: a Date at UTC midnight in the years 1000 to
    9999 is written by [utcDateToYMD] as a valid date key, and
    [ymdToUTCDate] reads that key back as the same Date. *)
Theorem date_round_trip t :
  t mod msPerDay = 0 -> 1000 <= YearFromTime t <= 9999 ->
  valid_key (utcDateToYMD (Some t)) /\
  ymdToUTCDate (utcDateToYMD (Some t)) = Some t.
Proof.
  intros Ht Hy. destruct (civil_fields_valid t) as (Hm & Hd & Hday).
  pose proof (DaysInMonth_bounds (isLeap (YearFromTime t)) (MonthFromTime t)) as Hdim.
  rewrite utcDateToYMD_canonical by done.
  split.
  - exists (YearFromTime t), (MonthFromTime t + 1), (DateFromTime t).
    split; [lia|]. split; [|done]. split; [lia|].
    by replace (MonthFromTime t + 1 - 1) with (MonthFromTime t) by lia.
  - destruct (year_field (YearFromTime t) ltac:(lia)) as [Hyd Hyv].
    destruct (short_field (MonthFromTime t + 1) ltac:(lia)) as [Hmd Hmv].
    destruct (short_field (DateFromTime t) ltac:(lia)) as [Hdd Hdv].
    unfold canonical_key.
    rewrite ymdToUTCDate_digits by done.
    rewrite Hyv, Hmv, Hdv.
    rewrite Date_UTC_in_range by lia.
    assert (MakeFullYear (YearFromTime t) = YearFromTime t) as ->.
    { unfold MakeFullYear. destruct (Z.leb_spec (YearFromTime t) 99); [lia|].
      by rewrite andb_false_r. }
    replace (MonthFromTime t + 1 - 1) with (MonthFromTime t) by lia.
    rewrite Hday. unfold MakeDate. f_equal.
    rewrite Z.add_0_r. symmetry. by apply midnight_is_day_multiple.
Qed.

(** Distinct valid date keys (years 1000 to 9999) are distinct Dates. *)
Lemma ymdToUTCDate_injective y1 m1 d1 y2 m2 d2 :
  1000 <= y1 <= 9999 -> valid_civil y1 m1 d1 ->
  1000 <= y2 <= 9999 -> valid_civil y2 m2 d2 ->
  ymdToUTCDate (canonical_key y1 m1 d1) = ymdToUTCDate (canonical_key y2 m2 d2) ->
  canonical_key y1 m1 d1 = canonical_key y2 m2 d2.
Proof.
  intros Hy1 Hv1 Hy2 Hv2 Heq.
  rewrite <- (key_round_trip_from_1000 y1 m1 d1) by done.
  rewrite <- (key_round_trip_from_1000 y2 m2 d2) by done.
  by rewrite Heq.
Qed.

End KeysAndDates.

Lemma date_round_trip_witness :
  valid_key (utcDateToYMD (Some 1704499200000)) /\
  ymdToUTCDate (utcDateToYMD (Some 1704499200000)) = Some 1704499200000.
Proof.
  apply date_round_trip; [reflexivity | vm_compute; split; discriminate].
Defined.

Lemma valid_key_is_read_back_witness :
  exists t,
    ymdToUTCDate (canonical_key 2024 2 29) = Some t /\
    t mod msPerDay = 0 /\
    YearFromTime t = 2024 /\ MonthFromTime t = 2 - 1 /\ DateFromTime t = 29 /\
    utcDateToYMD (Some t) = canonical_key 2024 2 29.
Proof.
  apply valid_key_is_read_back; [lia|].
  split; [lia|]. vm_compute. split; discriminate.
Defined.

(** ** The difference from today *)

Lemma is_digit_digit_of r : 0 <= r <= 9 -> is_digit (digit_of r) = true.
Proof.
  intros Hr.
  assert (r = 0 \/ r = 1 \/ r = 2 \/ r = 3 \/ r = 4 \/ r = 5 \/ r = 6 \/
          r = 7 \/ r = 8 \/ r = 9) as Hc by lia.
  repeat (destruct Hc as [-> | Hc]); try reflexivity. by subst.
Qed.

Lemma digits_go_head fuel n acc :
  (acc = "" -> fuel <> O) ->
  (forall c s, acc = String c s -> is_digit c = true) ->
  exists c s, digits_go fuel n acc = String c s /\ is_digit c = true.
Proof.
  revert n acc. induction fuel as [|fuel IH]; intros n acc Hne Hacc.
  - destruct acc as [|c s]; [by destruct Hne|]. exists c, s. eauto.
  - simpl. destruct (n / 10 =? 0).
    + eexists _, _. split; [done|]. apply is_digit_digit_of.
      Z.div_mod_to_equations. lia.
    + apply IH; [done|]. intros c s [= <- _]. apply is_digit_digit_of.
      Z.div_mod_to_equations. lia.
Qed.

(** A decimal rendering starts with a digit. *)
Lemma digits_head n : exists c s, digits n = String c s /\ is_digit c = true.
Proof. apply digits_go_head; done. Qed.

Lemma append_head c s t : (String c s +:+ t) = String c (s +:+ t).
Proof. reflexivity. Qed.

(** The label of a difference that is not zero starts with the digits of
    its weeks or of its days. *)
Lemma weeksDaysLabelFromDiffDays_head n :
  n <> 0 ->
  exists c s, weeksDaysLabelFromDiffDays (Some n) = String c s /\
              is_digit c = true.
Proof.
  intros Hn. unfold weeksDaysLabelFromDiffDays.
  cbn [num_is num_gt fmap option_fmap option_map].
  destruct (Z.eqb_spec n 0); [done|].
  set (w := Z.abs n / 7). set (d := Z.rem (Z.abs n) 7).
  assert (0 <= w) by (unfold w; Z.div_mod_to_equations; lia).
  assert (0 <= d) by (unfold d; apply Z.rem_nonneg; lia).
  assert (w <> 0 \/ d <> 0) as Hwd.
  { unfold w, d. rewrite Z.rem_mod_nonneg by lia.
    Z.div_mod_to_equations. lia. }
  assert (forall x, 0 <= x -> String_num (Some x) = digits x) as Hstr.
  { intros x Hx. unfold String_num, String_Z.
    by destruct (Z.ltb_spec x 0); [lia|]. }
  rewrite !Hstr by (done || lia).
  destruct (digits_head w) as (cw & sw & Ew & Hcw).
  destruct (digits_head d) as (cd & sd & Ed & Hcd).
  destruct (Z.eqb_spec w 0) as [Hw0|Hw0]; destruct (Z.eqb_spec d 0) as [Hd0|Hd0];
    cbn [negb List.app String.concat]; [lia | | | ];
    rewrite ?Ew, ?Ed; destruct (n >? 0); rewrite !append_head; eauto.
Qed.

Lemma weeksDaysLabelFromDiffDays_today_iff n :
  weeksDaysLabelFromDiffDays (Some n) = "今日（0日）" <-> n = 0.
Proof.
  split; [|by intros ->].
  intros Hlabel. destruct (Z.eq_dec n 0) as [|Hn]; [done|].
  destruct (weeksDaysLabelFromDiffDays_head n Hn) as (c & s & E & Hc).
  rewrite E in Hlabel. injection Hlabel as -> _. discriminate Hc.
Qed.

Lemma string_app_assoc (a b c : string) : (a +:+ b) +:+ c = a +:+ (b +:+ c).
Proof.
  induction a as [|x a IH]; [done|].
  change (String x ((a +:+ b) +:+ c) = String x (a +:+ (b +:+ c))).
  by rewrite IH.
Qed.

(** X7.
    [weeksDaysLabelFromDiffDays] answers "today" for the difference zero
    and for no other.  For any other difference it writes the whole
    weeks, if there are any, then the days left over, if there are any
    (never the fallback "0日"), then the direction and the signed number
    of days. *)
Theorem label_of_a_difference n :
  (weeksDaysLabelFromDiffDays (Some n) = "今日（0日）" <-> n = 0) /\
  (n <> 0 ->
   weeksDaysLabelFromDiffDays (Some n) =
     (if Z.abs n / 7 =? 0 then "" else digits (Z.abs n / 7) +:+ "週間") +:+
     (if Z.abs n mod 7 =? 0 then "" else digits (Z.abs n mod 7) +:+ "日") +:+
     (if 0 <? n then "後（+" else "前（-") +:+ digits (Z.abs n) +:+ "日）").
Proof.
  split; [apply weeksDaysLabelFromDiffDays_today_iff|].
  intros Hn. unfold weeksDaysLabelFromDiffDays.
  cbn [num_is num_gt fmap option_fmap option_map].
  destruct (Z.eqb_spec n 0); [done|].
  rewrite Z.rem_mod_nonneg by lia.
  set (w := Z.abs n / 7). set (d := Z.abs n mod 7).
  assert (0 <= w) by (unfold w; Z.div_mod_to_equations; lia).
  assert (0 <= d) by (unfold d; Z.div_mod_to_equations; lia).
  assert (w <> 0 \/ d <> 0) as Hwd
    by (unfold w, d; Z.div_mod_to_equations; lia).
  assert (forall x, 0 <= x -> String_num (Some x) = digits x) as Hstr.
  { intros x Hx. unfold String_num, String_Z.
    by destruct (Z.ltb_spec x 0); [lia|]. }
  rewrite !Hstr by (done || lia).
  assert ((1 >? 0) = true /\ (-1 >? 0) = false) as [E1 E2] by done.
  assert ((n >? 0) = (0 <? n)) as -> by apply Z.gtb_ltb.
  destruct (Z.eqb_spec w 0) as [Hw0|Hw0]; destruct (Z.eqb_spec d 0) as [Hd0|Hd0];
    cbn [negb List.app String.concat]; [lia | | | ];
    destruct (0 <? n); rewrite ?E1, ?E2, ?string_app_assoc; reflexivity.
Qed.

(** [Math.round] of the quotient of two UTC midnights by a day is the
    difference of their day numbers. *)
Lemma Math_round_div_midnights a b :
  Math_round_div (num_sub (Some (a * msPerDay)) (Some (b * msPerDay))) MS_PER_DAY
  = Some (a - b).
Proof.
  unfold Math_round_div. cbn [num_sub fmap option_fmap option_map]. f_equal.
  change MS_PER_DAY with 86400000. unfold msPerDay.
  Z.div_mod_to_equations. lia.
Qed.

Section Difference.
Context `{Host}.

(** What [render] writes as the difference from today. *)
Lemma render_diffText dateStr today s :
  dateStr <> "" ->
  text (dom (render dateStr today s)) !! "diffText" =
    Some (weeksDaysLabelFromDiffDays
            (Math_round_div (num_sub (ymdToUTCDate dateStr) (ymdToUTCDate today))
                            MS_PER_DAY)).
Proof.
  intros Hne. unfold render.
  destruct (String.eqb_spec dateStr ""); [done|].
  cbv zeta. cbn [dom].
  rewrite !lookup_set_text_ne by done.
  apply lookup_set_text_eq.
Qed.

(** X8.
    For valid date keys (years 1000 to 9999), the difference that
    [render] shows is the label of the whole days between today and the
    date, counted on day numbers; it reads "today" exactly when the date
    key is today's. *)
Theorem diffText_counts_whole_days y1 m1 d1 y0 m0 d0 s :
  1000 <= y1 <= 9999 -> valid_civil y1 m1 d1 ->
  1000 <= y0 <= 9999 -> valid_civil y0 m0 d0 ->
  let dateStr := canonical_key y1 m1 d1 in
  let today := canonical_key y0 m0 d0 in
  text (dom (render dateStr today s)) !! "diffText" =
    Some (weeksDaysLabelFromDiffDays
            (Some (MakeDay y1 (m1 - 1) d1 - MakeDay y0 (m0 - 1) d0))) /\
  (text (dom (render dateStr today s)) !! "diffText" = Some "今日（0日）"
   <-> dateStr = today).
Proof.
  intros Hy1 Hv1 Hy0 Hv0 dateStr today.
  assert (dateStr <> "") as Hne.
  { unfold dateStr. intros E. apply (f_equal ymdToUTCDate) in E.
    rewrite ymdToUTCDate_canonical in E by done. discriminate E. }
  assert (text (dom (render dateStr today s)) !! "diffText" =
          Some (weeksDaysLabelFromDiffDays
                  (Some (MakeDay y1 (m1 - 1) d1 - MakeDay y0 (m0 - 1) d0)))) as Htext.
  { rewrite render_diffText by done. unfold dateStr, today.
    by rewrite !ymdToUTCDate_canonical, Math_round_div_midnights by done. }
  split; [done|]. rewrite Htext. split.
  - intros [= Hlabel]. apply weeksDaysLabelFromDiffDays_today_iff in Hlabel.
    apply ymdToUTCDate_injective; [done..|].
    rewrite !ymdToUTCDate_canonical by done. f_equal. f_equal. lia.
  - intros Heq. f_equal. apply weeksDaysLabelFromDiffDays_today_iff.
    apply (f_equal ymdToUTCDate) in Heq. unfold dateStr, today in Heq.
    rewrite !ymdToUTCDate_canonical in Heq by done.
    injection Heq as Heq. unfold msPerDay in Heq. lia.
Qed.

End Difference.

Lemma diffText_counts_whole_days_witness :
  text (dom (render (canonical_key 2024 1 6) (canonical_key 2024 1 1)
               (initial blank_page))) !! "diffText" =
    Some (weeksDaysLabelFromDiffDays
            (Some (MakeDay 2024 (1 - 1) 6 - MakeDay 2024 (1 - 1) 1))).
Proof.
  refine (proj1 (diffText_counts_whole_days 2024 1 6 2024 1 1
                   (initial blank_page) _ _ _ _));
    first [lia | split; [lia | vm_compute; split; discriminate]].
Defined.

(** ** More on the cache *)

Section CacheMore.
Context `{Host}.

Lemma loadCache_saveCache_array xs ls :
  accepts_writes ls = true -> loadCache (saveCache (JArr xs) ls) = JArr xs.
Proof. intros Hw. unfold saveCache, loadCache. by rewrite Hw. Qed.

(** What is stored under the other keys after [setCached]. *)
Lemma loadCache_setCached_other k payload t ls k' :
  k <> k' ->
  prop (loadCache (setCached k payload t ls)) k' = prop (loadCache ls) k'.
Proof.
  intros Hne. unfold setCached.
  destruct (accepts_writes ls) eqn:Hw; [|by rewrite saveCache_refused].
  destruct (loadCache_shape ls) as [[o Ho] | [xs Hxs]].
  - rewrite Ho. cbn [assign]. rewrite loadCache_saveCache by done.
    cbn [prop]. by rewrite lookup_insert_ne.
  - rewrite Hxs. cbn [assign]. by rewrite loadCache_saveCache_array.
Qed.

Lemma getCached_reads_one_key k now ls ls' :
  prop (loadCache ls') k = prop (loadCache ls) k ->
  getCached k now ls' = getCached k now ls.
Proof. intros Heq. unfold getCached. by rewrite Heq. Qed.

Lemma getCached_setCached_other k payload t ls k' now :
  k <> k' ->
  getCached k' now (setCached k payload t ls) = getCached k' now ls.
Proof.
  intros Hne. apply getCached_reads_one_key.
  by apply loadCache_setCached_other.
Qed.

(** X9.
    [setCached] for one key changes what is stored, and what [getCached]
    answers, for no other key, whatever the storage holds and whether or
    not it takes the write. *)
Theorem setCached_leaves_other_keys k payload t ls k' :
  k <> k' ->
  prop (loadCache (setCached k payload t ls)) k' = prop (loadCache ls) k' /\
  forall now, getCached k' now (setCached k payload t ls) = getCached k' now ls.
Proof.
  intros Hne. split; [by apply loadCache_setCached_other|].
  intros now. by apply getCached_setCached_other.
Qed.

(** X10.
    Writing a key twice leaves the storage that the second write alone
    would leave: the last write wins and nothing of the first remains. *)
Theorem setCached_last_write_wins k p1 t1 p2 t2 ls :
  setCached k p2 t2 (setCached k p1 t1 ls) = setCached k p2 t2 ls.
Proof.
  unfold setCached.
  destruct (accepts_writes ls) eqn:Hw.
  - destruct (loadCache_shape ls) as [[o Ho] | [xs Hxs]].
    + rewrite Ho. cbn [assign]. rewrite loadCache_saveCache by done.
      cbn [assign]. unfold saveCache. rewrite Hw. cbn [accepts_writes].
      by rewrite insert_insert_eq.
    + rewrite Hxs. cbn [assign]. rewrite loadCache_saveCache_array by done.
      cbn [assign]. unfold saveCache. rewrite Hw. by cbn [accepts_writes].
  - rewrite (saveCache_refused _ ls Hw). by rewrite (saveCache_refused _ ls Hw).
Qed.

(** X11.
    For a date key, [getCached] answers only with what is stored: an
    entry that sits under that key in a stored JSON object, is truthy,
    and, if it carries a numeric timestamp other than zero, is at most
    120 days old.  On an absent, unparseable or non-object item it
    answers nothing.  (A date key names no member of [Object.prototype];
    for a name such as "constructor" the script's [cache[dateStr]] finds
    an inherited member.) *)
Theorem getCached_answers_what_is_stored k now ls e :
  valid_key k ->
  getCached k now ls = Some e ->
  (exists o, item ls = Some (Doc (JObj o)) /\ o !! k = Some e) /\
  truthy (Some e) = true /\
  (forall ts, prop e "ts" = Some (JNum ts) -> ts <> 0 ->
     now - ts <= CACHE_TTL_MS).
Proof.
  unfold getCached. intros _ Hget.
  destruct (prop (loadCache ls) k) as [v|] eqn:Hk; [|done].
  destruct (truthy (Some v)) eqn:Hv; [|done]. cbn [negb] in Hget.
  assert (v = e) as ->.
  { by destruct (truthy (prop v "ts") && _); [|injection Hget]. }
  split; [|split; [done|]].
  - unfold loadCache in Hk.
    destruct (item ls) as [[|obj]|]; [done | | done].
    destruct obj as [| | | | |o]; try done.
    + by destruct b.
    + by destruct (truthy (Some (JNum n)) && typeof_object (JNum n)).
    + by destruct (truthy (Some (JStr s)) && typeof_object (JStr s)).
    + by exists o.
  - intros ts Hts Hnz. rewrite Hts in Hget.
    cbn [truthy mbind option_bind ToNumber num_sub num_gt] in Hget.
    destruct (Z.eqb_spec ts 0); [done|]. cbn [negb andb] in Hget.
    destruct (Z.gtb_spec (now - ts) CACHE_TTL_MS); [done | lia].
Qed.

End CacheMore.

Lemma setCached_leaves_other_keys_witness :
  getCached "2024-01-06" 1704067200000
    (setCached "2024-01-01" payload_not 1704067200000
       (storage_with (JObj payload_not))) =
  getCached "2024-01-06" 1704067200000 (storage_with (JObj payload_not)).
Proof.
  apply (proj2 (setCached_leaves_other_keys "2024-01-01" payload_not
                  1704067200000 (storage_with (JObj payload_not))
                  "2024-01-06" ltac:(discriminate))).
Defined.

Lemma getCached_answers_what_is_stored_witness :
  (exists o, item (storage_with (JObj payload_not)) = Some (Doc (JObj o)) /\
             o !! "2024-01-01" = Some (JObj payload_not)) /\
  truthy (Some (JObj payload_not)) = true /\
  (forall ts, prop (JObj payload_not) "ts" = Some (JNum ts) -> ts <> 0 ->
     1704067200000 - ts <= CACHE_TTL_MS).
Proof.
  exact (getCached_answers_what_is_stored "2024-01-01" 1704067200000
           (storage_with (JObj payload_not)) (JObj payload_not)
           ltac:(exists 2024, 1, 1; split; [lia | split; [split; [lia | vm_compute; split; discriminate] | reflexivity]])
           eq_refl).
Defined.

(** ** More on the resolver *)

Section ResolverMore.
Context `{Host}.

(** X12.
    A lookup changes what the cache answers for no other key. *)
Theorem lookup_leaves_other_keys k now net later ls k' t :
  k <> k' ->
  getCached k' t (storage (getHolidayByAPI k now net later ls)) =
  getCached k' t ls.
Proof.
  intros Hne.
  destruct (getHolidayByAPI_writes k now net later ls)
    as [[_ ->] | (payload & _ & -> & _)]; [done|].
  by apply getCached_setCached_other.
Qed.

(** X13.
    When a lookup has stored its result (the storage took the write and
    held no JSON array), the next lookup of the same key within 120 days
    asks the network nothing and resolves with the stored result: the
    first result plus its timestamp, with the same status. *)
Theorem second_lookup_is_served_from_cache
    k now net later ls now2 net2 later2 :
  accepts_writes ls = true ->
  (forall xs, loadCache ls <> JArr xs) ->
  let o1 := getHolidayByAPI k now net later ls in
  writes o1 <> [] ->
  now2 - later <= CACHE_TTL_MS ->
  let o2 := getHolidayByAPI k now2 net2 later2 (storage o1) in
  exists payload,
    result o1 = JObj payload /\
    result o2 = JObj (<["ts" := JNum later]> payload) /\
    prop (result o2) "status" = prop (result o1) "status" /\
    requests o2 = [] /\ writes o2 = [] /\ storage o2 = storage o1.
Proof.
  intros Hw Harr o1 Hwrote Hage o2.
  destruct (getHolidayByAPI_writes k now net later ls)
    as [[Hnil _] | (payload & _ & Hst & Hres & Hstatus)]; [done|].
  fold o1 in Hst, Hres.
  exists payload. split; [done|].
  assert (getCached k now2 (setCached k payload later ls) =
          Some (JObj (<["ts" := JNum later]> payload))) as Hfresh.
  { destruct (loadCache_shape ls) as [[o Ho] | [xs Hxs]];
      [| by destruct (Harr xs)].
    rewrite (getCached_numeric_ts _ _ _ (<["ts" := JNum later]> payload) later).
    - destruct (Z.gtb_spec (now2 - later) CACHE_TTL_MS); [lia|].
      by rewrite andb_false_r.
    - rewrite (loadCache_setCached _ _ _ _ o) by done.
      cbn [prop]. apply lookup_insert_eq.
    - apply lookup_insert_eq. }
  subst o2. rewrite Hst.
  rewrite (getHolidayByAPI_hit _ _ _ _ _ _ Hfresh). cbn [result requests writes storage].
  rewrite Hres. split; [done|]. split; [|done].
  cbn [prop]. apply lookup_insert_ne. done.
Qed.

End ResolverMore.

Lemma lookup_leaves_other_keys_witness :
  getCached "2024-01-06" 1704067200000
    (storage (getHolidayByAPI "2024-01-01" 1704067200000
                (Response 404 BodyNotJson) 1704067200500 empty_storage)) =
  getCached "2024-01-06" 1704067200000 empty_storage.
Proof.
  apply lookup_leaves_other_keys. discriminate.
Defined.

(** A 404 for 2024-01-01, and the same key looked up a day later while
    the network is down. *)
Lemma second_lookup_is_served_from_cache_witness :
  exists payload,
    result (getHolidayByAPI "2024-01-01" 1704067200000
              (Response 404 BodyNotJson) 1704067200500 empty_storage) =
      JObj payload /\
    result (getHolidayByAPI "2024-01-01" 1704153600000 TransportFault
              1704153600500
              (storage (getHolidayByAPI "2024-01-01" 1704067200000
                          (Response 404 BodyNotJson) 1704067200500
                          empty_storage))) =
      JObj (<["ts" := JNum 1704067200500]> payload).
Proof.
  destruct (second_lookup_is_served_from_cache "2024-01-01" 1704067200000
              (Response 404 BodyNotJson) 1704067200500 empty_storage
              1704153600000 TransportFault 1704153600500
              eq_refl ltac:(discriminate) ltac:(discriminate)
              ltac:(unfold CACHE_TTL_MS; lia))
    as (payload & H1 & H2 & _).
  exists payload. split; [exact H1 | exact H2].
Defined.

(** ** More on render *)

Lemma written_after_await_false el :
  written_after_await el = false ->
  el <> "holidayText" /\ el <> "holidayNameText" /\ el <> "noteText" /\
  el <> "businessDayText".
Proof.
  unfold written_after_await. rewrite !orb_false_iff, !String.eqb_neq. tauto.
Qed.

Lemma render_rest_of_other_text v k result s el :
  written_after_await el = false ->
  text (render_rest_of v k result s) !! el = text (dom s) !! el.
Proof.
  intros (H1 & H2 & H3 & H4)%written_after_await_false.
  destruct v; cbn [render_rest_of]; unfold render_rest, Earlier.render_rest;
    (destruct (negb (reqId k =? lastReqId s)); [done|]);
    destruct (is_str (prop result "status") "holiday");
    [| destruct (is_str (prop result "status") "not") | |
     destruct (is_str (prop result "status") "not")];
    try destruct (truthy (Some (or_empty (prop result "type"))));
    rewrite ?text_addBadge, ?lookup_set_text_ne, ?text_setNote_ne,
      ?text_addBadge, ?text_setNote_ne, ?text_setHolidayName_ne,
      ?text_addBadge, ?lookup_set_text_ne,
      ?text_weekendBadge, ?text_clearBadges by done;
    done.
Qed.

Section Settling.
Context `{Host}.

(** X14.
    A settling lookup writes the holiday line, the holiday name, the note
    and (in the current version) the business-day line, and no other
    text: the date, the weekday, the difference from today and the week
    numbers stay as the call of [render] left them; nor does it change
    the counter. *)
Theorem settled_lookup_writes_four_lines v s id result el :
  written_after_await el = false ->
  text (dom (step v s (Settle id result))) !! el = text (dom s) !! el /\
  lastReqId (step v s (Settle id result)) = lastReqId s.
Proof.
  intros Hel. cbn [step].
  destruct (take_suspended id (awaiting s)) as [[k rest]|]; [|done].
  cbn [dom lastReqId]. split; [|done]. by apply render_rest_of_other_text.
Qed.

End Settling.

Lemma settled_lookup_writes_four_lines_witness :
  text (dom (step CurrentScript lookup_A_started (Settle 1 (JObj payload_not))))
    !! "diffText" =
  text (dom lookup_A_started) !! "diffText".
Proof.
  exact (proj1 (settled_lookup_writes_four_lines CurrentScript
                  lookup_A_started 1 (JObj payload_not) "diffText" eq_refl)).
Defined.

Lemma badges_set_text el s p : badges (set_text el s p) = badges p.
Proof. reflexivity. Qed.

Lemma badges_setHolidayName name p : badges (setHolidayName name p) = badges p.
Proof. unfold setHolidayName. by destruct (truthy (Some name)). Qed.

Lemma badges_setNote msg p : badges (setNote msg p) = badges p.
Proof. reflexivity. Qed.




Section RenderMore.
Context `{Host}.

(** ** Request ids *)

Lemma take_suspended_ids_decrease id l k rest :
  take_suspended id l = Some (k, rest) -> ids_decrease l -> ids_decrease rest.
Proof.
  revert k rest. induction l as [|k0 l IH]; intros k rest; [done|].
  simpl. destruct (reqId k0 =? id).
  - intros [= <- <-] [_ Hl]. done.
  - destruct (take_suspended id l) as [[k' rest']|] eqn:Ht; [|done].
    intros [= <- <-] [Hk0 Hl]. simpl. split; [|by eapply IH].
    by eapply take_suspended_Forall.
Qed.

Lemma step_ids_in_order v s e : ids_in_order s -> ids_in_order (step v s e).
Proof.
  intros (H0 & Hr & Hd). destruct e as [dateStr today | id result].
  - cbn [step]. destruct (String.eqb_spec dateStr "") as [-> | Hne].
    + unfold ids_in_order. by destruct (render_empty v today s) as [-> ->].
    + unfold ids_in_order.
      destruct (render_issues v dateStr today s Hne) as [-> [w ->]].
      split; [lia|]. split.
      * constructor; cbn [reqId]; [lia|].
        eapply Forall_impl; [exact Hr|]. cbn. intros; lia.
      * cbn [ids_decrease reqId]. split; [|done].
        eapply Forall_impl; [exact Hr|]. cbn. intros; lia.
  - cbn [step].
    destruct (take_suspended id (awaiting s)) as [[k rest]|] eqn:Ht; [|done].
    unfold ids_in_order. cbn [awaiting lastReqId]. split; [done|].
    split; [by eapply take_suspended_Forall|].
    by eapply take_suspended_ids_decrease.
Qed.

Lemma step_counts v s e :
  lastReqId (step v s e) = lastReqId s + (if starts_lookup e then 1 else 0).
Proof.
  destruct e as [dateStr today | id result]; cbn [step starts_lookup].
  - destruct (String.eqb_spec dateStr "") as [-> | Hne]; cbn [negb].
    + destruct (render_empty v today s) as [-> _]. lia.
    + by destruct (render_issues v dateStr today s Hne) as [-> _].
  - destruct (take_suspended id (awaiting s)) as [[k rest]|];
      cbn [lastReqId]; lia.
Qed.

(** X16.
    The counter [lastReqId] counts the calls of [render] that started a
    lookup (calls with the empty string do not count), in both versions;
    and at every moment the ids of the calls that wait are distinct, lie
    between 1 and the counter, and decrease from the latest call on. *)
Theorem request_ids_count_lookups v evs p0 :
  lastReqId (run v evs (initial p0)) = lookups_started evs /\
  ids_in_order (run v evs (initial p0)).
Proof.
  assert (forall s, ids_in_order s ->
            lastReqId (run v evs s) = lastReqId s + lookups_started evs /\
            ids_in_order (run v evs s)) as Hgen.
  { induction evs as [|e evs IH]; intros s Hs.
    - cbn. split; [lia|done].
    - change (run v (e :: evs) s) with (run v evs (step v s e)).
      destruct (IH (step v s e) (step_ids_in_order v s e Hs)) as [-> Hin].
      split; [|done]. rewrite step_counts. cbn [lookups_started]. lia. }
  destruct (Hgen (initial p0)) as [-> Hin]; [|done].
  unfold ids_in_order. cbn. split; [done|]. split; constructor.
Qed.

End RenderMore.

(** ** Event handlers *)

Section Handlers.
Context `{Host} `{DateInput}.

Lemma render_datePretty v dateStr today s :
  text (dom (render_of v dateStr today s)) !! "datePretty" =
    Some (ymdPretty dateStr).
Proof.
  unfold ymdPretty.
  destruct v; cbn [render_of]; unfold render, Earlier.render;
    destruct (String.eqb dateStr ""); cbv zeta; cbn [dom];
    rewrite ?text_addBadge, ?lookup_set_text_ne, ?text_addBadge,
      ?lookup_set_text_ne, ?text_weekendBadge, ?text_addBadge,
      ?lookup_set_text_ne by done;
    apply lookup_set_text_eq.
Qed.

(** X17.
    The date line mirrors the date input.  When the input keeps the
    empty string and the dates that the script assigns to it, then from
    the moment the page has loaded, through any sequence of changes of
    the input, clicks on the two buttons and lookups settling, the line
    shows the value of the input, or a dash when the input is empty. *)
Theorem date_line_mirrors_the_input v value t today p evs :
  assigned "" = "" ->
  (v = CurrentScript -> assigned t = t) ->
  forallb input_keeps evs = true ->
  let u := fold_left (handle v) evs (load v value t today p) in
  text (dom (script u)) !! "datePretty" = Some (ymdPretty (dateInput_value u)).
Proof.
  intros Hempty Hload Hevs.
  assert (forall u,
            text (dom (script u)) !! "datePretty" =
              Some (ymdPretty (dateInput_value u)) ->
            text (dom (script (fold_left (handle v) evs u))) !! "datePretty" =
              Some (ymdPretty (dateInput_value (fold_left (handle v) evs u))))
    as Hgen.
  { induction evs as [|e evs IH]; intros u Hu; [done|].
    cbn [forallb] in Hevs. apply andb_prop in Hevs as [He Hevs].
    cbn [fold_left]. apply IH; [done|].
    destruct e as [val td | t' td | | id result];
      cbn [handle on_change on_todayBtn on_clearBtn on_settled
           script dateInput_value].
    - apply render_datePretty.
    - cbn [input_keeps] in He. apply String.eqb_eq in He. rewrite He.
      apply render_datePretty.
    - rewrite Hempty. apply render_datePretty.
    - destruct (take_suspended id (awaiting (script u))) as [[k rest]|] eqn:Ht;
        cbn [step]; rewrite Ht; [|done].
      cbn [dom]. by rewrite render_rest_of_other_text. }
  apply Hgen.
  destruct v; cbn [load on_change on_todayBtn script dateInput_value].
  - apply render_datePretty.
  - rewrite Hload by done. apply render_datePretty.
Qed.

(** X18.
    The button "today" of the current version, when both readings of the
    clock give the same date, the input keeps it and [ymdToUTCDate] reads
    it as a Date: the input holds that date, the date line shows it, the difference reads
    "today", a lookup is started and the holiday and business-day lines
    wait for it. *)
Theorem today_button_shows_today t u :
  assigned t = t ->
  is_Some (ymdToUTCDate t) ->
  let u' := on_todayBtn CurrentScript t t u in
  dateInput_value u' = t /\
  text (dom (script u')) !! "datePretty" = Some t /\
  text (dom (script u')) !! "diffText" = Some "今日（0日）" /\
  text (dom (script u')) !! "holidayText" = Some "判定中…" /\
  text (dom (script u')) !! "businessDayText" = Some "判定中…" /\
  lastReqId (script u') = lastReqId (script u) + 1.
Proof.
  intros Hkept [a Ha] u'.
  assert (t <> "") as Hne by (intros ->; discriminate Ha).
  subst u'. cbn [on_todayBtn dateInput_value script render_of].
  split; [done|]. split.
  { pose proof (render_datePretty CurrentScript t t (script u)) as Hd.
    cbn [render_of] in Hd. rewrite Hd. unfold ymdPretty.
    by destruct (String.eqb_spec t ""). }
  split.
  { rewrite render_diffText by done. rewrite Ha.
    unfold Math_round_div. cbn [num_sub fmap option_fmap option_map].
    by rewrite Z.sub_diag. }
  destruct (render_issues CurrentScript t t (script u) Hne) as [Hl _].
  cbn [render_of] in Hl. split; [|split; [|done]].
  - unfold render. destruct (String.eqb_spec t ""); [done|].
    cbv zeta. cbn [dom]. rewrite lookup_set_text_ne by done.
    apply lookup_set_text_eq.
  - unfold render. destruct (String.eqb_spec t ""); [done|].
    cbv zeta. cbn [dom]. apply lookup_set_text_eq.
Qed.

(** X19.
    Clearing does not supersede.  [render("")] blanks the page without
    taking a new request id, so the call that waited as the latest one is
    still the latest: when its lookup settles, its result is written into
    the holiday line of the page that shows no date (the input keeps the
    empty string). *)
Theorem clearing_keeps_the_pending_lookup v u k rest result :
  assigned "" = "" ->
  awaiting (script u) = k :: rest ->
  reqId k = lastReqId (script u) ->
  let cleared := on_clearBtn v u in
  let u' := on_settled v (reqId k) result cleared in
  lastReqId (script cleared) = lastReqId (script u) /\
  text (dom (script cleared)) !! "holidayText" = Some "—" /\
  dateInput_value u' = "" /\
  text (dom (script u')) !! "datePretty" = Some "—" /\
  text (dom (script u')) !! "holidayText" =
    Some (if is_str (prop result "status") "holiday" then "祝日"
          else if is_str (prop result "status") "not" then "祝日ではありません"
          else "取得失敗（通信/応答）").
Proof.
  intros Hempty Ha Hid cleared u'.
  destruct (render_empty v "" (script u)) as [Hl Haw].
  split; [done|]. split.
  { subst cleared. cbn [on_clearBtn script].
    destruct v; cbn [render_of]; unfold render, Earlier.render;
      cbn [String.eqb]; cbv zeta; cbn [dom];
      rewrite ?lookup_set_text_ne by done; apply lookup_set_text_eq. }
  split; [done|].
  subst u' cleared. cbn [on_settled on_clearBtn script dateInput_value step].
  rewrite Haw, Ha. cbn [take_suspended]. rewrite Z.eqb_refl. cbn [dom].
  split.
  - rewrite render_rest_of_other_text by done.
    apply (render_datePretty v "").
  - apply render_rest_of_holidayText. by rewrite Hl.
Qed.

End Handlers.

Lemma date_line_mirrors_the_input_witness :
  let u :=
    fold_left (handle CurrentScript)
      [Change "2024-01-06" "2024-01-01";
       Settled 2 (JObj payload_not);
       TodayBtn "2024-01-01" "2024-01-01";
       ClearBtn;
       Settled 3 (JObj (payload_holiday (JStr "元日") (JStr "")))]
      (load CurrentScript "" "2024-01-01" "2024-01-01" blank_page) in
  text (dom (script u)) !! "datePretty" = Some (ymdPretty (dateInput_value u)).
Proof.
  apply (date_line_mirrors_the_input CurrentScript "" "2024-01-01" "2024-01-01"
           blank_page); [reflexivity | intros _; reflexivity | reflexivity].
Defined.

Lemma today_button_shows_today_witness :
  text (dom (script (on_todayBtn CurrentScript "2024-01-01" "2024-01-01"
                       {| dateInput_value := ""; script := initial blank_page |})))
    !! "diffText" = Some "今日（0日）".
Proof.
  exact (proj1 (proj2 (proj2 (today_button_shows_today "2024-01-01"
           {| dateInput_value := ""; script := initial blank_page |}
           eq_refl ltac:(by eexists))))).
Defined.

Lemma clearing_keeps_the_pending_lookup_witness :
  text (dom (script (on_settled CurrentScript 1 (JObj payload_not)
                       (on_clearBtn CurrentScript
                          {| dateInput_value := "2024-01-01";
                             script := lookup_A_started |}))))
    !! "holidayText" = Some "祝日ではありません".
Proof.
  exact (proj2 (proj2 (proj2 (proj2
           (clearing_keeps_the_pending_lookup CurrentScript
              {| dateInput_value := "2024-01-01"; script := lookup_A_started |}
              {| reqId := 1; isWeekend := false |} [] (JObj payload_not)
              eq_refl eq_refl eq_refl))))).
Defined.

(** ** From the network to the page *)

Section EndToEnd.
Context `{Host}.

(** On a miss, a result with status Holiday is the object literal with a
    truthy name. *)
Lemma miss_holiday_has_a_name k now net later ls :
  getCached k now ls = None ->
  is_str (prop (result (getHolidayByAPI k now net later ls)) "status") "holiday"
    = true ->
  exists name type,
    result (getHolidayByAPI k now net later ls) =
      JObj (payload_holiday name type) /\
    truthy (Some name) = true.
Proof.
  intros Hmiss. unfold getHolidayByAPI. rewrite Hmiss.
  destruct net as [| |status b]; [done..|].
  destruct (status =? 404); [done|].
  destruct (negb (ok status)); [done|].
  destruct b as [j| |]; [|done..].
  destruct (normalizeHolidayResponse j) as [i|]; [|done].
  destruct (truthy (Some (info_name i))) eqn:Hname; [|done].
  intros _. by eexists _, _.
Qed.

Lemma or_empty_truthy x : truthy (Some x) = true -> or_empty (Some x) = x.
Proof. intros Hx. unfold or_empty. by rewrite Hx. Qed.

Lemma setHolidayName_truthy name p :
  truthy (Some name) = true ->
  setHolidayName name p =
    {| text := <["holidayNameText" := ToString name]> (text p);
       holidayNameRow_hidden := false;
       badges := badges p |}.
Proof. intros Hn. unfold setHolidayName. by rewrite Hn. Qed.

(** X20.
    A holiday fresh from the network is shown with its name.  When a
    lookup of a date key that missed the cache resolves with status
    Holiday, with a name that is a string or an integer of at most 2^53
    in size, and is the latest, the page shows the holiday line, the row
    of the holiday name with the name the response gave (never the
    dash), and no business day. *)
Theorem fresh_holiday_is_shown_with_its_name k now net later ls c s :
  valid_key k ->
  getCached k now ls = None ->
  let o := getHolidayByAPI k now net later ls in
  is_str (prop (result o) "status") "holiday" = true ->
  plain_text (prop (result o) "name") = true ->
  reqId c = lastReqId s ->
  exists name,
    prop (result o) "name" = Some name /\ truthy (Some name) = true /\
    let p := render_rest c (result o) s in
    text p !! "holidayText" = Some "祝日" /\
    holidayNameRow_hidden p = false /\
    text p !! "holidayNameText" = Some (ToString name) /\
    text p !! "businessDayText" = Some "休業日（非営業日）".
Proof.
  intros _ Hmiss o Hst _ Hid.
  destruct (miss_holiday_has_a_name k now net later ls Hmiss Hst)
    as (name & type & Hres & Hname).
  fold o in Hres. exists name. rewrite Hres.
  split; [done|]. split; [done|]. cbv zeta.
  split; [by rewrite (render_rest_of_holidayText CurrentScript)|].
  assert (render_rest c (JObj (payload_holiday name type)) s =
          let p := weekendBadge (isWeekend c) (clearBadges (dom s)) in
          let p := set_text "holidayText" "祝日" p in
          let p := setHolidayName name p in
          let p := addBadge "祝日" "ck-badge-accent" p in
          let p := if truthy (Some (or_empty (Some type)))
                   then setNote ("種別：" +:+ ToString (or_empty (Some type))) p
                   else p in
          let p := set_text "businessDayText" "休業日（非営業日）" p in
          addBadge "休業日" "ck-badge-warn" p) as ->.
  { unfold render_rest. rewrite Hid, Z.eqb_refl. cbn [negb].
    change (is_str (prop (JObj (payload_holiday name type)) "status") "holiday")
      with true. cbv iota.
    change (prop (JObj (payload_holiday name type)) "name") with (Some name).
    change (prop (JObj (payload_holiday name type)) "type") with (Some type).
    rewrite (or_empty_truthy name Hname). rewrite andb_false_r. reflexivity. }
  cbv zeta. rewrite (setHolidayName_truthy name _ Hname).
  split; [|split].
  - destruct (truthy (Some (or_empty (Some type)))); reflexivity.
  - destruct (truthy (Some (or_empty (Some type))));
      rewrite ?text_addBadge, ?lookup_set_text_ne, ?text_setNote_ne,
        ?text_addBadge by done;
      cbn [text]; apply lookup_insert_eq.
  - rewrite text_addBadge. apply lookup_set_text_eq.
Qed.

End EndToEnd.

(** New Year's Day from the network, as the latest lookup. *)
Lemma fresh_holiday_is_shown_with_its_name_witness :
  exists name,
    prop (result (getHolidayByAPI "2024-01-01" 1704067200000
                    new_years_day_reply 1704067200500 empty_storage))
         "name" = Some name /\
    truthy (Some name) = true /\
    text (render_rest {| reqId := 1; isWeekend := false |}
            (result (getHolidayByAPI "2024-01-01" 1704067200000
                       new_years_day_reply 1704067200500 empty_storage))
            lookup_A_started) !! "holidayNameText" = Some (ToString name).
Proof.
  destruct (fresh_holiday_is_shown_with_its_name (H := date_key_host)
              "2024-01-01" 1704067200000 new_years_day_reply
              1704067200500 empty_storage
              {| reqId := 1; isWeekend := false |} lookup_A_started
              ltac:(exists 2024, 1, 1; split; [lia | split; [split; [lia | vm_compute; split; discriminate] | reflexivity]])
              eq_refl ltac:(vm_compute; reflexivity)
              ltac:(vm_compute; reflexivity) eq_refl)
    as (name & Hn & Ht & _ & _ & Hname & _).
  exists name. split; [exact Hn|]. split; [exact Ht | exact Hname].
Defined.

(** ** The week lines *)

Section WeekLines.
Context `{Host}.

Lemma render_week_lines dateStr today s :
  dateStr <> "" ->
  let targetUTC := ymdToUTCDate dateStr in
  let yPer := getYearPeriodFor targetUTC in
  let yw := weekIndexAndRemaining targetUTC (yp_start yPer) (yp_end yPer) in
  let fPer := getFiscalPeriodFor targetUTC in
  let fw := weekIndexAndRemaining targetUTC (fyStart fPer) (fyEnd fPer) in
  text (dom (render dateStr today s)) !! "yearWeekText" =
    Some ("第" +:+ String_num (idx yw) +:+ "週（残り" +:+
          String_num (remain yw) +:+ "週）") /\
  text (dom (render dateStr today s)) !! "fiscalWeekText" =
    Some ((String_num (getUTCFullYear (fyStart fPer)) +:+ "年度") +:+ " 第" +:+
          String_num (idx fw) +:+ "週（残り" +:+ String_num (remain fw) +:+ "週）").
Proof.
  intros Hne. unfold render.
  destruct (String.eqb_spec dateStr ""); [done|].
  cbv zeta. cbn [dom]. split.
  - rewrite !lookup_set_text_ne by done. apply lookup_set_text_eq.
  - rewrite !lookup_set_text_ne by done. apply lookup_set_text_eq.
Qed.

Lemma String_num_nonneg x : 0 <= x -> String_num (Some x) = digits x.
Proof.
  intros Hx. unfold String_num, String_Z. by destruct (Z.ltb_spec x 0); [lia|].
Qed.

(** X21.
    For a valid date key with a year from 1000 to 9999, [render] writes
    the week of the calendar year and the week of the fiscal year with an
    index between 1 and the number of weeks of the period, which is 53 or
    54, and the weeks that remain; the fiscal year is the year of the
    date from April on and the year before it until March. *)
Theorem week_lines_of_a_valid_key yr m d today s :
  1000 <= yr <= 9999 -> valid_civil yr m d ->
  let p := dom (render (canonical_key yr m d) today s) in
  exists i n j k,
    (1 <= i <= n /\ (n = 53 \/ n = 54)) /\
    text p !! "yearWeekText" =
      Some ("第" +:+ digits i +:+ "週（残り" +:+ digits (n - i) +:+ "週）") /\
    (1 <= j <= k /\ (k = 53 \/ k = 54)) /\
    text p !! "fiscalWeekText" =
      Some ((digits (if m <? 4 then yr - 1 else yr) +:+ "年度") +:+ " 第" +:+
            digits j +:+ "週（残り" +:+ digits (k - j) +:+ "週）").
Proof.
  intros Hy Hv p.
  pose proof (ymdToUTCDate_canonical yr m d Hy Hv) as Hparse.
  set (t := MakeDay yr (m - 1) d * msPerDay) in *.
  assert (t mod msPerDay = 0) as Ht by apply Z_mod_mult.
  destruct Hv as [Hm Hd].
  pose proof (civil_roundtrip yr (m - 1) d ltac:(lia) Hd) as Hc.
  unfold MakeDate in Hc. rewrite Z.add_0_r in Hc. fold t in Hc.
  destruct Hc as (HY & HM & _).
  assert (canonical_key yr m d <> "") as Hne.
  { intros E. rewrite E in Hparse. discriminate Hparse. }
  destruct (render_week_lines (canonical_key yr m d) today s Hne) as [Hyw Hfw].
  fold p in Hyw, Hfw. rewrite Hparse in Hyw, Hfw.
  destruct (getYearPeriodFor_weeks t Ht ltac:(lia))
    as (ys & ye & i & n & Hyp & _ & _ & _ & Hywi & Hi & Hn).
  destruct (getFiscalPeriodFor_weeks t Ht ltac:(lia))
    as (fs & fe & j & k & Hfp & _ & _ & Hfy & _ & _ & Hfwi & Hj & Hk).
  rewrite Hyp in Hyw. cbn [yp_start yp_end] in Hyw. rewrite Hywi in Hyw.
  cbn [idx remain] in Hyw.
  rewrite Hfp in Hfw. cbn [fyStart fyEnd] in Hfw. rewrite Hfwi in Hfw.
  cbn [idx remain] in Hfw.
  unfold getUTCFullYear in Hfw.
  change (YearFromTime <$> Some fs) with (Some (YearFromTime fs)) in Hfw.
  rewrite Hfy, HY, HM in Hfw.
  assert ((m - 1 <? 3) = (m <? 4)) as Hmonth.
  { destruct (Z.ltb_spec (m - 1) 3), (Z.ltb_spec m 4); done || lia. }
  rewrite Hmonth in Hfw.
  rewrite !String_num_nonneg in Hyw by lia.
  rewrite !String_num_nonneg in Hfw by (destruct (m <? 4); lia).
  exists i, n, j, k. done.
Qed.

End WeekLines.

Lemma week_lines_of_a_valid_key_witness :
  exists i n j k,
    (1 <= i <= n /\ (n = 53 \/ n = 54)) /\
    text (dom (render (canonical_key 2024 1 6) "2024-01-01" (initial blank_page)))
      !! "yearWeekText" =
      Some ("第" +:+ digits i +:+ "週（残り" +:+ digits (n - i) +:+ "週）") /\
    (1 <= j <= k /\ (k = 53 \/ k = 54)) /\
    text (dom (render (canonical_key 2024 1 6) "2024-01-01" (initial blank_page)))
      !! "fiscalWeekText" =
      Some ((digits (if 1 <? 4 then 2024 - 1 else 2024) +:+ "年度") +:+ " 第" +:+
            digits j +:+ "週（残り" +:+ digits (k - j) +:+ "週）").
Proof.
  apply (week_lines_of_a_valid_key 2024 1 6 "2024-01-01" (initial blank_page));
    [lia | split; [lia | vm_compute; split; discriminate]].
Defined.

(** ** The badge row *)

Lemma badges_weekendBadge w p :
  length (badges (weekendBadge w p)) = S (length (badges p)).
Proof.
  unfold weekendBadge, addBadge. cbn [badges]. rewrite length_app. cbn. lia.
Qed.

Lemma badges_addBadge label kind p :
  length (badges (addBadge label kind p)) = S (length (badges p)).
Proof. unfold addBadge. cbn [badges]. rewrite length_app. cbn. lia. Qed.

Lemma badges_render_rest_of v k result s :
  (length (badges (dom s)) <= 3)%nat ->
  (length (badges (render_rest_of v k result s)) <= 3)%nat.
Proof.
  intros Hs. destruct v; cbn [render_rest_of].
  - unfold Earlier.render_rest.
    destruct (negb (reqId k =? lastReqId s)); [done|]. cbv zeta.
    destruct (is_str (prop result "status") "holiday");
      [| destruct (is_str (prop result "status") "not")];
      rewrite ?badges_setNote, ?badges_addBadge, ?badges_setNote,
        ?badges_setHolidayName, ?badges_set_text, ?badges_addBadge,
        ?badges_weekendBadge; cbn; lia.
  - unfold render_rest.
    destruct (negb (reqId k =? lastReqId s)); [done|]. cbv zeta.
    destruct (is_str (prop result "status") "holiday");
      [| destruct (is_str (prop result "status") "not")].
    + destruct (truthy (Some (or_empty (prop result "type"))));
        rewrite badges_addBadge, badges_set_text, ?badges_setNote,
          badges_addBadge, badges_setHolidayName, badges_set_text,
          badges_weekendBadge; cbn; lia.
    + rewrite badges_addBadge, badges_set_text, badges_setNote,
        badges_setHolidayName, badges_set_text, badges_weekendBadge; cbn; lia.
    + rewrite badges_addBadge, badges_set_text, badges_addBadge, badges_setNote,
        badges_setHolidayName, badges_set_text, badges_weekendBadge; cbn; lia.
Qed.

Section BadgeRow.
Context `{Host}.

Lemma badges_render_of v dateStr today s :
  (length (badges (dom (render_of v dateStr today s))) <= 2)%nat.
Proof.
  destruct v; cbn [render_of].
  - unfold Earlier.render. destruct (String.eqb dateStr ""); cbv zeta; cbn [dom].
    + rewrite !badges_set_text, badges_setHolidayName, badges_setNote. cbn. lia.
    + rewrite badges_addBadge, badges_set_text, badges_weekendBadge,
        !badges_set_text, badges_setHolidayName, badges_setNote. cbn. lia.
  - unfold render. destruct (String.eqb dateStr ""); cbv zeta; cbn [dom].
    + rewrite !badges_set_text, badges_setHolidayName, badges_setNote. cbn. lia.
    + rewrite !badges_set_text, badges_addBadge, badges_weekendBadge,
        !badges_set_text, badges_setHolidayName, badges_setNote. cbn. lia.
Qed.

Lemma badges_step v s e :
  (length (badges (dom s)) <= 3)%nat ->
  (length (badges (dom (step v s e))) <= 3)%nat.
Proof.
  intros Hs. destruct e as [dateStr today | id result]; cbn [step].
  - pose proof (badges_render_of v dateStr today s). lia.
  - destruct (take_suspended id (awaiting s)) as [[k rest]|]; [|done].
    cbn [dom]. by apply badges_render_rest_of.
Qed.

(** X22.
    Badges do not pile up.  Every call of [render] empties the badge row
    before it adds its own, and so does the rest of the call after the
    lookup: whatever the calls and the lookups, in whatever order, a row
    of at most three badges stays a row of at most three badges, in both
    versions. *)
Theorem badges_do_not_pile_up v evs s :
  (length (badges (dom s)) <= 3)%nat ->
  (length (badges (dom (run v evs s))) <= 3)%nat.
Proof.
  unfold run. revert s. induction evs as [|e evs IH]; intros s Hs; [done|].
  cbn [fold_left]. apply IH. by apply badges_step.
Qed.

End BadgeRow.

Lemma badges_do_not_pile_up_witness :
  (length (badges (dom (run CurrentScript
     [Render "2024-01-01" "2024-01-01";
      Settle 1 (JObj (payload_holiday (JStr "元日") (JStr "")));
      Render "2024-01-06" "2024-01-01";
      Settle 2 (JObj (payload_error "timeout"))]
     (initial blank_page)))) <= 3)%nat.
Proof.
  apply (badges_do_not_pile_up CurrentScript); vm_compute; lia.
Defined.

(** ** Storage that cannot be used *)

(** X23.
    When the item under [CACHE_KEY] is missing, is no JSON, or is JSON
    that is neither an object nor an array, and the storage takes writes,
    [setCached] for a date key replaces it by a mapping that holds the
    new entry alone.  (For a date key the assignment [cache[dateStr] =
    ...] creates an own property; for "__proto__" it would not.) *)
Theorem unusable_storage_is_replaced k payload t ls :
  valid_key k ->
  accepts_writes ls = true -> unusable (item ls) = true ->
  item (setCached k payload t ls) =
    Some (Doc (JObj {[ k := JObj (<["ts" := JNum t]> payload) ]})).
Proof.
  intros _ Hw Hu. unfold setCached, saveCache. rewrite Hw. cbn [item].
  assert (loadCache ls = JObj ∅) as ->.
  { unfold loadCache. destruct (item ls) as [[|v]|]; try done.
    destruct v; try done; cbn.
    - by destruct b.
    - by destruct (n =? 0).
    - by destruct (String.eqb s ""). }
  cbn [assign]. by rewrite insert_empty.
Qed.

Lemma unusable_storage_is_replaced_witness :
  item (setCached "2024-01-01" payload_not 5
          {| item := Some Garbage; accepts_writes := true |}) =
    Some (Doc (JObj {[ "2024-01-01" := JObj (<["ts" := JNum 5]> payload_not) ]})).
Proof.
  apply (unusable_storage_is_replaced "2024-01-01" payload_not 5
           {| item := Some Garbage; accepts_writes := true |});
    [| reflexivity | reflexivity].
  exists 2024, 1, 1.
  split; [lia | split; [split; [lia | vm_compute; split; discriminate]
                       | reflexivity]].
Defined.

(** ** Today's key in the earlier version *)

(** X24.
    [todayStr] of a local calendar date with a year from 1000 to 9999 is
    the valid date key of that date ([getMonth()] counts from 0). *)
Theorem todayStr_is_a_valid_key yr m d :
  1000 <= yr <= 9999 -> valid_civil yr (m + 1) d ->
  todayStr (Some yr) (Some m) (Some d) = canonical_key yr (m + 1) d /\
  valid_key (todayStr (Some yr) (Some m) (Some d)).
Proof.
  intros Hy Hv.
  assert (todayStr (Some yr) (Some m) (Some d) = canonical_key yr (m + 1) d) as E.
  { destruct Hv as [Hm Hd].
    unfold todayStr, canonical_key. cbn [num_add].
    unfold pad2, String_num, String_Z.
    destruct (Z.ltb_spec yr 0); [lia|].
    destruct (Z.ltb_spec (m + 1) 0); [lia|].
    destruct (Z.ltb_spec d 0); [lia|].
    by rewrite year_unpadded by lia. }
  split; [done|]. rewrite E. exists yr, (m + 1), d.
  split; [lia|]. done.
Qed.

Lemma todayStr_is_a_valid_key_witness :
  todayStr (Some 2024) (Some 0) (Some 6) = canonical_key 2024 (0 + 1) 6 /\
  valid_key (todayStr (Some 2024) (Some 0) (Some 6)).
Proof.
  apply (todayStr_is_a_valid_key 2024 0 6);
    [lia | split; [lia | vm_compute; split; discriminate]].
Defined.
